(** * mod_ringback: the tone detection engine of the FreeSWITCH ringback module

    A shallow embedding of
    [freeswitch/mod/applications/mod_ringback/mod_ringback.c]:
    the three cadence predicates, the Goertzel filter, the frame energy,
    the media-bug callback with its on/off segment tracking and template
    cascade, the result reporting and the session start.

    Conventions.
    - [uint32_t] fields are [Z] values reduced by [uint32]; [int] fields are
      [Z] values, and an increment goes through [sint32] (two's complement;
      C leaves the overflow itself undefined).
    - [double] arithmetic is an interface, [Double], with two instances:
      IEEE binary64 (Rocq's primitive floats), on which the code runs, and
      the real numbers, on which the Goertzel coefficient is a formula.
      Everything about segments, counters and verdicts is proved for any
      instance.
    - The channel of the session is a log of the calls made on it
      ([switch_channel_set_variable], [switch_channel_hangup]); the clock
      ([switch_micro_time_now]) is an input of each call. *)

From Stdlib Require Import ZArith List Bool String Lia.
From Stdlib Require Import Floats.
From Stdlib Require Import Reals Lra.
Import ListNotations.

Local Open Scope Z_scope.

(** ** Machine integers *)

Definition uint32 (z : Z) : Z := z mod 2 ^ 32.

Definition sint32 (z : Z) : Z := (z + 2 ^ 31) mod 2 ^ 32 - 2 ^ 31.

Definition INT_MAX : Z := 2 ^ 31 - 1.

(** ** Constants of the module *)

Definition RINGBACK_TONE_BUSY : Z := 1.
Definition RINGBACK_TONE_RINGBACK : Z := 2.
Definition RINGBACK_TONE_COLORRINGBACK : Z := 4.
Definition RINGBACK_TONE_SILENCE : Z := 32.
Definition RINGBACK_TONE_450HZ : Z := 64.

Definition SAMPLE_RATE : Z := 8000.
Definition TARGET_FREQ : Z := 450.
Definition GOERTZEL_N : Z := 205.

Definition BUSY_ON_MIN : Z := 250.
Definition BUSY_ON_MAX : Z := 450.
Definition BUSY_OFF_MIN : Z := 250.
Definition BUSY_OFF_MAX : Z := 450.

Definition RINGBACK_ON_MIN : Z := 900.
Definition RINGBACK_ON_MAX : Z := 1200.
Definition RINGBACK_OFF_MIN : Z := 3000.
Definition RINGBACK_OFF_MAX : Z := 5000.

Definition CONGESTION_ON_MIN : Z := 600.
Definition CONGESTION_ON_MAX : Z := 800.
Definition CONGESTION_OFF_MIN : Z := 500.
Definition CONGESTION_OFF_MAX : Z := 900.

Definition ENERGY_THRESHOLD : Z := 500.
Definition MIN_TONE_SAMPLES : Z := 80.

(** ** The cadence predicates *)

Definition match_busy_pattern (on_ms off_ms : Z) : bool :=
  (BUSY_ON_MIN <=? on_ms) && (on_ms <=? BUSY_ON_MAX) &&
  (BUSY_OFF_MIN <=? off_ms) && (off_ms <=? BUSY_OFF_MAX).

Definition match_ringback_pattern (on_ms off_ms : Z) : bool :=
  (RINGBACK_ON_MIN <=? on_ms) && (on_ms <=? RINGBACK_ON_MAX) &&
  (RINGBACK_OFF_MIN <=? off_ms) && (off_ms <=? RINGBACK_OFF_MAX).

Definition match_congestion_pattern (on_ms off_ms : Z) : bool :=
  (CONGESTION_ON_MIN <=? on_ms) && (on_ms <=? CONGESTION_ON_MAX) &&
  (CONGESTION_OFF_MIN <=? off_ms) && (off_ms <=? CONGESTION_OFF_MAX).

(** ** The arithmetic of [double] *)

Class Double (D : Type) : Type := {
  d_of_int : Z -> D;          (* the conversion (double)i *)
  d_add : D -> D -> D;
  d_sub : D -> D -> D;
  d_mul : D -> D -> D;
  d_div : D -> D -> D;
  d_sqrt : D -> D;
  d_cos : D -> D;
  M_PI : D;
  d_gt : D -> D -> bool;      (* a > b *)
  d_eq : D -> D -> bool       (* a == b *)
}.

Declare Scope double_scope.
Delimit Scope double_scope with dbl.
Infix "+" := d_add : double_scope.
Infix "-" := d_sub : double_scope.
Infix "*" := d_mul : double_scope.
Infix "/" := d_div : double_scope.
Infix ">?" := d_gt : double_scope.
Infix "=?" := d_eq : double_scope.

(** IEEE binary64. [of_uint63] is exact on the integers met here (below
    2^53). libm's [cos] is outside the repository: the instance takes it as
    an argument. *)
Definition float_of_int (z : Z) : float :=
  if z <? 0 then PrimFloat.opp (PrimFloat.of_uint63 (Uint63.of_Z (- z)))
  else PrimFloat.of_uint63 (Uint63.of_Z z).

Definition Double_float (libm_cos : float -> float) : Double float := {|
  d_of_int := float_of_int;
  d_add := PrimFloat.add;
  d_sub := PrimFloat.sub;
  d_mul := PrimFloat.mul;
  d_div := PrimFloat.div;
  d_sqrt := PrimFloat.sqrt;
  d_cos := libm_cos;
  M_PI := 0x1.921fb54442d18p+1%float;
  d_gt := fun a b => PrimFloat.ltb b a;
  d_eq := PrimFloat.eqb
|}.

(** The real numbers: what the code computes when rounding is ignored. *)
Definition Double_R : Double R := {|
  d_of_int := IZR;
  d_add := Rplus;
  d_sub := Rminus;
  d_mul := Rmult;
  d_div := Rdiv;
  d_sqrt := sqrt;
  d_cos := cos;
  M_PI := PI;
  d_gt := fun a b => if Rlt_dec b a then true else false;
  d_eq := fun a b => if Req_dec_T a b then true else false
|}.

(** A stand-in for libm's cosine on binary64, for running the code: the
    Taylor polynomial of degree 20 in Horner form (the only argument the
    module passes is about 0.3534). *)
Definition cos_poly (x : float) : float :=
  let x2 := PrimFloat.mul x x in
  let step (k : Z) (acc : float) : float :=
    PrimFloat.sub 1
      (PrimFloat.mul (PrimFloat.div x2 (float_of_int ((2 * k - 1) * (2 * k)))) acc) in
  step 1 (step 2 (step 3 (step 4 (step 5 (step 6 (step 7 (step 8 (step 9
    (step 10 1%float))))))))).

#[global] Instance Double_binary64 : Double float := Double_float cos_poly.

(** ** The detection state

    [ringback_state_t] without its three pointers: [session] and [bug] are
    handles of the host ([machine] below holds the channel of the session),
    and [stoptone] is never read or written. *)

Section Engine.

Context {D : Type} `{Double D}.

Local Open Scope double_scope.
Local Open Scope Z_scope.

Record ringback_state_t : Type := {
  running : Z;
  sample_count : Z;
  goertzel_s1 : D;
  goertzel_s2 : D;
  goertzel_coef : D;
  in_tone : Z;
  tone_start_ms : Z;
  silence_start_ms : Z;
  last_tone_duration_ms : Z;
  last_silence_duration_ms : Z;
  tone_type : Z;
  consecutive_busy : Z;
  consecutive_ringback : Z;
  start_time_ms : Z;
  max_detect_time_ms : Z;
  autohangup : Z;
  hangup_on_busy : Z;
  hangup_on_ringback : Z
}.

(** Assignment to one field, [state->f = v]. *)
Definition set_running (v : Z) (st : ringback_state_t) : ringback_state_t :=
  {| running := v; sample_count := sample_count st;
     goertzel_s1 := goertzel_s1 st; goertzel_s2 := goertzel_s2 st;
     goertzel_coef := goertzel_coef st; in_tone := in_tone st;
     tone_start_ms := tone_start_ms st;
     silence_start_ms := silence_start_ms st;
     last_tone_duration_ms := last_tone_duration_ms st;
     last_silence_duration_ms := last_silence_duration_ms st;
     tone_type := tone_type st; consecutive_busy := consecutive_busy st;
     consecutive_ringback := consecutive_ringback st;
     start_time_ms := start_time_ms st;
     max_detect_time_ms := max_detect_time_ms st;
     autohangup := autohangup st; hangup_on_busy := hangup_on_busy st;
     hangup_on_ringback := hangup_on_ringback st |}.

Definition set_sample_count (v : Z) (st : ringback_state_t) : ringback_state_t :=
  {| running := running st; sample_count := v; goertzel_s1 := goertzel_s1 st;
     goertzel_s2 := goertzel_s2 st; goertzel_coef := goertzel_coef st;
     in_tone := in_tone st; tone_start_ms := tone_start_ms st;
     silence_start_ms := silence_start_ms st;
     last_tone_duration_ms := last_tone_duration_ms st;
     last_silence_duration_ms := last_silence_duration_ms st;
     tone_type := tone_type st; consecutive_busy := consecutive_busy st;
     consecutive_ringback := consecutive_ringback st;
     start_time_ms := start_time_ms st;
     max_detect_time_ms := max_detect_time_ms st;
     autohangup := autohangup st; hangup_on_busy := hangup_on_busy st;
     hangup_on_ringback := hangup_on_ringback st |}.

Definition set_goertzel_s1 (v : D) (st : ringback_state_t) : ringback_state_t :=
  {| running := running st; sample_count := sample_count st;
     goertzel_s1 := v; goertzel_s2 := goertzel_s2 st;
     goertzel_coef := goertzel_coef st; in_tone := in_tone st;
     tone_start_ms := tone_start_ms st;
     silence_start_ms := silence_start_ms st;
     last_tone_duration_ms := last_tone_duration_ms st;
     last_silence_duration_ms := last_silence_duration_ms st;
     tone_type := tone_type st; consecutive_busy := consecutive_busy st;
     consecutive_ringback := consecutive_ringback st;
     start_time_ms := start_time_ms st;
     max_detect_time_ms := max_detect_time_ms st;
     autohangup := autohangup st; hangup_on_busy := hangup_on_busy st;
     hangup_on_ringback := hangup_on_ringback st |}.

Definition set_goertzel_s2 (v : D) (st : ringback_state_t) : ringback_state_t :=
  {| running := running st; sample_count := sample_count st;
     goertzel_s1 := goertzel_s1 st; goertzel_s2 := v;
     goertzel_coef := goertzel_coef st; in_tone := in_tone st;
     tone_start_ms := tone_start_ms st;
     silence_start_ms := silence_start_ms st;
     last_tone_duration_ms := last_tone_duration_ms st;
     last_silence_duration_ms := last_silence_duration_ms st;
     tone_type := tone_type st; consecutive_busy := consecutive_busy st;
     consecutive_ringback := consecutive_ringback st;
     start_time_ms := start_time_ms st;
     max_detect_time_ms := max_detect_time_ms st;
     autohangup := autohangup st; hangup_on_busy := hangup_on_busy st;
     hangup_on_ringback := hangup_on_ringback st |}.

Definition set_goertzel_coef (v : D) (st : ringback_state_t) : ringback_state_t :=
  {| running := running st; sample_count := sample_count st;
     goertzel_s1 := goertzel_s1 st; goertzel_s2 := goertzel_s2 st;
     goertzel_coef := v; in_tone := in_tone st;
     tone_start_ms := tone_start_ms st;
     silence_start_ms := silence_start_ms st;
     last_tone_duration_ms := last_tone_duration_ms st;
     last_silence_duration_ms := last_silence_duration_ms st;
     tone_type := tone_type st; consecutive_busy := consecutive_busy st;
     consecutive_ringback := consecutive_ringback st;
     start_time_ms := start_time_ms st;
     max_detect_time_ms := max_detect_time_ms st;
     autohangup := autohangup st; hangup_on_busy := hangup_on_busy st;
     hangup_on_ringback := hangup_on_ringback st |}.

Definition set_in_tone (v : Z) (st : ringback_state_t) : ringback_state_t :=
  {| running := running st; sample_count := sample_count st;
     goertzel_s1 := goertzel_s1 st; goertzel_s2 := goertzel_s2 st;
     goertzel_coef := goertzel_coef st; in_tone := v;
     tone_start_ms := tone_start_ms st;
     silence_start_ms := silence_start_ms st;
     last_tone_duration_ms := last_tone_duration_ms st;
     last_silence_duration_ms := last_silence_duration_ms st;
     tone_type := tone_type st; consecutive_busy := consecutive_busy st;
     consecutive_ringback := consecutive_ringback st;
     start_time_ms := start_time_ms st;
     max_detect_time_ms := max_detect_time_ms st;
     autohangup := autohangup st; hangup_on_busy := hangup_on_busy st;
     hangup_on_ringback := hangup_on_ringback st |}.

Definition set_tone_start_ms (v : Z) (st : ringback_state_t) : ringback_state_t :=
  {| running := running st; sample_count := sample_count st;
     goertzel_s1 := goertzel_s1 st; goertzel_s2 := goertzel_s2 st;
     goertzel_coef := goertzel_coef st; in_tone := in_tone st;
     tone_start_ms := v; silence_start_ms := silence_start_ms st;
     last_tone_duration_ms := last_tone_duration_ms st;
     last_silence_duration_ms := last_silence_duration_ms st;
     tone_type := tone_type st; consecutive_busy := consecutive_busy st;
     consecutive_ringback := consecutive_ringback st;
     start_time_ms := start_time_ms st;
     max_detect_time_ms := max_detect_time_ms st;
     autohangup := autohangup st; hangup_on_busy := hangup_on_busy st;
     hangup_on_ringback := hangup_on_ringback st |}.

Definition set_silence_start_ms (v : Z) (st : ringback_state_t) : ringback_state_t :=
  {| running := running st; sample_count := sample_count st;
     goertzel_s1 := goertzel_s1 st; goertzel_s2 := goertzel_s2 st;
     goertzel_coef := goertzel_coef st; in_tone := in_tone st;
     tone_start_ms := tone_start_ms st; silence_start_ms := v;
     last_tone_duration_ms := last_tone_duration_ms st;
     last_silence_duration_ms := last_silence_duration_ms st;
     tone_type := tone_type st; consecutive_busy := consecutive_busy st;
     consecutive_ringback := consecutive_ringback st;
     start_time_ms := start_time_ms st;
     max_detect_time_ms := max_detect_time_ms st;
     autohangup := autohangup st; hangup_on_busy := hangup_on_busy st;
     hangup_on_ringback := hangup_on_ringback st |}.

Definition set_last_tone_duration_ms (v : Z) (st : ringback_state_t) : ringback_state_t :=
  {| running := running st; sample_count := sample_count st;
     goertzel_s1 := goertzel_s1 st; goertzel_s2 := goertzel_s2 st;
     goertzel_coef := goertzel_coef st; in_tone := in_tone st;
     tone_start_ms := tone_start_ms st;
     silence_start_ms := silence_start_ms st; last_tone_duration_ms := v;
     last_silence_duration_ms := last_silence_duration_ms st;
     tone_type := tone_type st; consecutive_busy := consecutive_busy st;
     consecutive_ringback := consecutive_ringback st;
     start_time_ms := start_time_ms st;
     max_detect_time_ms := max_detect_time_ms st;
     autohangup := autohangup st; hangup_on_busy := hangup_on_busy st;
     hangup_on_ringback := hangup_on_ringback st |}.

Definition set_last_silence_duration_ms (v : Z) (st : ringback_state_t) : ringback_state_t :=
  {| running := running st; sample_count := sample_count st;
     goertzel_s1 := goertzel_s1 st; goertzel_s2 := goertzel_s2 st;
     goertzel_coef := goertzel_coef st; in_tone := in_tone st;
     tone_start_ms := tone_start_ms st;
     silence_start_ms := silence_start_ms st;
     last_tone_duration_ms := last_tone_duration_ms st;
     last_silence_duration_ms := v; tone_type := tone_type st;
     consecutive_busy := consecutive_busy st;
     consecutive_ringback := consecutive_ringback st;
     start_time_ms := start_time_ms st;
     max_detect_time_ms := max_detect_time_ms st;
     autohangup := autohangup st; hangup_on_busy := hangup_on_busy st;
     hangup_on_ringback := hangup_on_ringback st |}.

Definition set_tone_type (v : Z) (st : ringback_state_t) : ringback_state_t :=
  {| running := running st; sample_count := sample_count st;
     goertzel_s1 := goertzel_s1 st; goertzel_s2 := goertzel_s2 st;
     goertzel_coef := goertzel_coef st; in_tone := in_tone st;
     tone_start_ms := tone_start_ms st;
     silence_start_ms := silence_start_ms st;
     last_tone_duration_ms := last_tone_duration_ms st;
     last_silence_duration_ms := last_silence_duration_ms st; tone_type := v;
     consecutive_busy := consecutive_busy st;
     consecutive_ringback := consecutive_ringback st;
     start_time_ms := start_time_ms st;
     max_detect_time_ms := max_detect_time_ms st;
     autohangup := autohangup st; hangup_on_busy := hangup_on_busy st;
     hangup_on_ringback := hangup_on_ringback st |}.

Definition set_consecutive_busy (v : Z) (st : ringback_state_t) : ringback_state_t :=
  {| running := running st; sample_count := sample_count st;
     goertzel_s1 := goertzel_s1 st; goertzel_s2 := goertzel_s2 st;
     goertzel_coef := goertzel_coef st; in_tone := in_tone st;
     tone_start_ms := tone_start_ms st;
     silence_start_ms := silence_start_ms st;
     last_tone_duration_ms := last_tone_duration_ms st;
     last_silence_duration_ms := last_silence_duration_ms st;
     tone_type := tone_type st; consecutive_busy := v;
     consecutive_ringback := consecutive_ringback st;
     start_time_ms := start_time_ms st;
     max_detect_time_ms := max_detect_time_ms st;
     autohangup := autohangup st; hangup_on_busy := hangup_on_busy st;
     hangup_on_ringback := hangup_on_ringback st |}.

Definition set_consecutive_ringback (v : Z) (st : ringback_state_t) : ringback_state_t :=
  {| running := running st; sample_count := sample_count st;
     goertzel_s1 := goertzel_s1 st; goertzel_s2 := goertzel_s2 st;
     goertzel_coef := goertzel_coef st; in_tone := in_tone st;
     tone_start_ms := tone_start_ms st;
     silence_start_ms := silence_start_ms st;
     last_tone_duration_ms := last_tone_duration_ms st;
     last_silence_duration_ms := last_silence_duration_ms st;
     tone_type := tone_type st; consecutive_busy := consecutive_busy st;
     consecutive_ringback := v; start_time_ms := start_time_ms st;
     max_detect_time_ms := max_detect_time_ms st;
     autohangup := autohangup st; hangup_on_busy := hangup_on_busy st;
     hangup_on_ringback := hangup_on_ringback st |}.

(** ** The Goertzel filter and the frame energy *)

(** [goertzel_coefficient], the static of the file, is part of [machine];
    [init_goertzel] maps its old value to its new one. *)
Definition init_goertzel (goertzel_coefficient : D) : D :=
  if (goertzel_coefficient =? d_of_int 0)%dbl then
    let k := (d_of_int GOERTZEL_N * d_of_int TARGET_FREQ / d_of_int SAMPLE_RATE)%dbl in
    (d_of_int 2 * d_cos (d_of_int 2 * M_PI * k / d_of_int GOERTZEL_N))%dbl
  else goertzel_coefficient.

Definition goertzel_process_sample (state : ringback_state_t) (sample : Z)
  : ringback_state_t :=
  let s0 := (d_of_int sample + goertzel_coef state * goertzel_s1 state
             - goertzel_s2 state)%dbl in
  let state := set_goertzel_s2 (goertzel_s1 state) state in
  let state := set_goertzel_s1 s0 state in
  set_sample_count (sint32 (sample_count state + 1)) state.

Definition goertzel_get_energy (state : ringback_state_t) : D :=
  let power := (goertzel_s1 state * goertzel_s1 state
                + goertzel_s2 state * goertzel_s2 state
                - goertzel_coef state * goertzel_s1 state * goertzel_s2 state)%dbl in
  (power / d_of_int (GOERTZEL_N * GOERTZEL_N))%dbl.

(** The loop reads [samples[0]] to [samples[count - 1]] and nothing after
    them (no sample at all for a [count] of zero or less). *)
Definition calc_frame_energy (samples : list Z) (count : Z) : D :=
  let sum :=
    fold_left (fun sum s => (sum + d_of_int s * d_of_int s)%dbl)
              (firstn (Z.to_nat count) samples) (d_of_int 0) in
  d_sqrt (sum / d_of_int count)%dbl.

(** ** The host side *)

Inductive switch_bool_t : Type := SWITCH_FALSE | SWITCH_TRUE.

Inductive switch_call_cause_t : Type := SWITCH_CAUSE_USER_BUSY.

(** One call made on the channel of the session. *)
Inductive channel_call : Type :=
| switch_channel_set_variable (name value : string)
| switch_channel_hangup (cause : switch_call_cause_t).

(** The channel as the log of the calls made on it, oldest first. A session
    of the host always has a channel. *)
Definition channel : Type := list channel_call.

(** A frame: [data] as the callback reads it, an array of 16-bit samples
    (or a null pointer), and its length in bytes. *)
Record switch_frame_t : Type := {
  data : option (list Z);
  datalen : Z
}.

Definition set_ringback_result (state : ringback_state_t) (ch : channel) : channel :=
  ch ++ [ switch_channel_set_variable "ringback_finish_cause"
            (if (tone_type state =? RINGBACK_TONE_BUSY)%Z then "busy"
             else if (tone_type state =? RINGBACK_TONE_RINGBACK)%Z then "ringback"
             else "timeout");
          switch_channel_set_variable "ringback_tone"
            (if (tone_type state =? RINGBACK_TONE_BUSY)%Z then "busy"
             else if (tone_type state =? RINGBACK_TONE_RINGBACK)%Z then "ringback"
             else "unknown");
          switch_channel_set_variable "ringback_result"
            (if (tone_type state =? RINGBACK_TONE_BUSY)%Z then "busy"
             else if (tone_type state =? RINGBACK_TONE_RINGBACK)%Z then "ringback"
             else "unknown") ]%string%list.

(** ** The media-bug callback *)

(** What the callback computes about one frame (source lines 178-200). *)
Record tone_decision : Type := {
  energy : D;
  goertzel_energy : D;
  has_tone : bool
}.

(** The loop of lines 182-190: samples enter the filter until the window of
    [GOERTZEL_N] samples is full; then the energy is read, the filter is
    reset and the loop is left. Returns the state and [goertzel_energy]. *)
Fixpoint goertzel_window (samples : list Z) (state : ringback_state_t)
  : ringback_state_t * D :=
  match samples with
  | [] => (state, d_of_int 0)
  | sample :: rest =>
      let state := goertzel_process_sample state sample in
      if GOERTZEL_N <=? sample_count state then
        let goertzel_energy := goertzel_get_energy state in
        let state := set_goertzel_s2 (d_of_int 0) state in
        let state := set_goertzel_s1 (d_of_int 0) state in
        let state := set_sample_count 0 state in
        (state, goertzel_energy)
      else goertzel_window rest state
  end.

Definition detect_tone (samples : list Z) (samples_per_frame : Z)
    (state : ringback_state_t) : ringback_state_t * tone_decision :=
  let energy := calc_frame_energy samples samples_per_frame in
  let '(state, goertzel_energy) := goertzel_window samples state in
  let has_tone :=
    (energy >? d_of_int ENERGY_THRESHOLD)%dbl &&
    ((goertzel_energy >? d_of_int 1000)%dbl || (0 <? sample_count state)) in
  let '(goertzel_energy, has_tone) :=
    if Z.quot GOERTZEL_N 2 <=? sample_count state then
      let goertzel_energy := goertzel_get_energy state in
      (goertzel_energy, has_tone || (goertzel_energy >? d_of_int 1000)%dbl)
    else (goertzel_energy, has_tone) in
  (* line 200: the decision is taken again, from the frame energy *)
  let has_tone := (energy >? d_of_int ENERGY_THRESHOLD)%dbl in
  (state, {| energy := energy; goertzel_energy := goertzel_energy;
             has_tone := has_tone |}).

(** The template cascade of lines 219-242, run when a tone ends. It is
    written over the two durations handed to the predicates; the callback
    hands it [state->last_tone_duration_ms] and the literal [0]. The result
    is what the callback returns on this path, the state and the channel. *)
Definition classify_segment (on_ms off_ms : Z) (state : ringback_state_t)
    (ch : channel) : switch_bool_t * ringback_state_t * channel :=
  if match_busy_pattern on_ms off_ms then
    let state := set_consecutive_busy (sint32 (consecutive_busy state + 1)) state in
    let state := set_consecutive_ringback 0 state in
    if 2 <=? consecutive_busy state then
      let state := set_tone_type RINGBACK_TONE_BUSY state in
      let state := set_running 0 state in
      let ch := set_ringback_result state ch in
      let ch :=
        if hangup_on_busy state =? 0 then ch
        else ch ++ [switch_channel_hangup SWITCH_CAUSE_USER_BUSY] in
      (SWITCH_FALSE, state, ch)
    else (SWITCH_TRUE, state, ch)
  else if match_ringback_pattern on_ms off_ms then
    let state :=
      set_consecutive_ringback (sint32 (consecutive_ringback state + 1)) state in
    let state := set_consecutive_busy 0 state in
    let state :=
      if 1 <=? consecutive_ringback state
      then set_tone_type RINGBACK_TONE_RINGBACK state else state in
    (SWITCH_TRUE, state, ch)
  else
    let state := set_consecutive_busy 0 state in
    let state := set_consecutive_ringback 0 state in
    (SWITCH_TRUE, state, ch).

(** Lines 204-248: the on/off tracking. *)
Definition track_segment (has_tone : bool) (now_ms : Z)
    (state : ringback_state_t) (ch : channel)
  : switch_bool_t * ringback_state_t * channel :=
  if has_tone then
    if in_tone state =? 0 then
      let state := set_in_tone 1 state in
      let state :=
        if 0 <? silence_start_ms state
        then set_last_silence_duration_ms
               (uint32 (now_ms - silence_start_ms state)) state
        else state in
      let state := set_tone_start_ms now_ms state in
      (SWITCH_TRUE, state, ch)
    else (SWITCH_TRUE, state, ch)
  else
    if negb (in_tone state =? 0) then
      let state := set_in_tone 0 state in
      let state :=
        set_last_tone_duration_ms (uint32 (now_ms - tone_start_ms state)) state in
      let state := set_silence_start_ms now_ms state in
      classify_segment (last_tone_duration_ms state) 0 state ch
    else if silence_start_ms state =? 0 then
      (SWITCH_TRUE, set_silence_start_ms now_ms state, ch)
    else (SWITCH_TRUE, state, ch).

(** What the callback reads and writes: the state behind [user_data] (or a
    null pointer), the static [goertzel_coefficient] and the channel. *)
Record machine : Type := {
  user_data : option ringback_state_t;
  goertzel_coefficient : D;
  session_channel : channel
}.

(** [ringback_media_callback]; [micro_now] is what [switch_micro_time_now]
    returns during the call. The arguments [bug], [codec], [buffer] and
    [len] of the C function are not read, and its local [frame_duration_ms]
    is computed and never used. The callback reads the first
    [datalen / 2] samples of the frame. *)
Definition ringback_media_callback (m : machine) (frame : switch_frame_t)
    (micro_now : Z) : switch_bool_t * machine :=
  match user_data m with
  | None => (SWITCH_TRUE, m)
  | Some state =>
    if running state =? 0 then (SWITCH_TRUE, m) else
    match data frame with
    | None => (SWITCH_TRUE, m)
    | Some buffer =>
      if datalen frame =? 0 then (SWITCH_TRUE, m) else
      let samples_per_frame := Z.quot (datalen frame) 2 in
      if samples_per_frame <=? 0 then (SWITCH_TRUE, m) else
      let now_ms := uint32 (Z.quot micro_now 1000 - start_time_ms state) in
      if (0 <? max_detect_time_ms state) && (max_detect_time_ms state <? now_ms)
      then
        let state := set_running 0 state in
        (SWITCH_FALSE,
         {| user_data := Some state;
            goertzel_coefficient := goertzel_coefficient m;
            session_channel := set_ringback_result state (session_channel m) |})
      else
        let coefficient := init_goertzel (goertzel_coefficient m) in
        let state := set_goertzel_coef coefficient state in
        let samples := firstn (Z.to_nat samples_per_frame) buffer in
        let '(state, decision) := detect_tone samples samples_per_frame state in
        let '(result, state, ch) :=
          track_segment (has_tone decision) now_ms state (session_channel m) in
        (result,
         {| user_data := Some state;
            goertzel_coefficient := coefficient;
            session_channel := ch |})
    end
  end.

(** ** Starting a session *)

Inductive switch_status_t : Type := SWITCH_STATUS_SUCCESS | SWITCH_STATUS_FALSE.

(** [start_ringback]. [var_maxdetecttime] is [atoi] of the channel variable
    [ringback_maxdetecttime] and [var_autohangup] is [switch_true] of
    [ringback_autohangup], each [None] when the variable is not set;
    [bug_status] is what [switch_core_session_create_media_bug] returns. When
    it fails the state is attached to no bug and the callback never sees it. *)
Definition start_ringback (micro_now : Z) (var_maxdetecttime var_autohangup : option Z)
    (bug_status : switch_status_t) (m : machine) : switch_status_t * machine :=
  let state :=
    {| running := 1; sample_count := 0;
       goertzel_s1 := d_of_int 0; goertzel_s2 := d_of_int 0;
       goertzel_coef := d_of_int 0;
       in_tone := 0; tone_start_ms := 0; silence_start_ms := 0;
       last_tone_duration_ms := 0; last_silence_duration_ms := 0;
       tone_type := 0; consecutive_busy := 0; consecutive_ringback := 0;
       start_time_ms := uint32 (Z.quot micro_now 1000);
       max_detect_time_ms :=
         match var_maxdetecttime with
         | Some n => if 0 <? n then uint32 (n * 1000) else 60000
         | None => 60000
         end;
       autohangup := 1;
       hangup_on_busy :=
         match var_autohangup with
         | Some b => b
         | None => 1
         end;
       hangup_on_ringback := 0 |} in
  match bug_status with
  | SWITCH_STATUS_SUCCESS =>
      (SWITCH_STATUS_SUCCESS,
       {| user_data := Some state;
          goertzel_coefficient := goertzel_coefficient m;
          session_channel :=
            session_channel m ++
            [switch_channel_set_variable "ringback_active" "true"] |})
  | SWITCH_STATUS_FALSE => (SWITCH_STATUS_FALSE, m)
  end.

(** The host delivers frames one after the other; each comes with the clock
    reading of its call. *)
Fixpoint deliver (m : machine) (frames : list (switch_frame_t * Z)) : machine :=
  match frames with
  | [] => m
  | (frame, micro_now) :: rest =>
      deliver (snd (ringback_media_callback m frame micro_now)) rest
  end.

End Engine.

(** * Sessions and streams to run the code on

    The code runs on binary64. Frames are 10 ms long (80 samples, 160
    bytes) and the frame that ends at [t] ms is delivered at clock reading
    [1000 * t]. *)

Definition idle_machine : machine (D:=float) :=
  {| user_data := None; goertzel_coefficient := 0%float; session_channel := [] |}.

(** A session started at clock reading 0 with no channel variable set. *)
Definition started_session : machine (D:=float) :=
  snd (start_ringback 0 None None SWITCH_STATUS_SUCCESS idle_machine).

(** The state of that session. *)
Definition started_state : ringback_state_t (D:=float) :=
  {| running := 1; sample_count := 0;
     goertzel_s1 := 0%float; goertzel_s2 := 0%float; goertzel_coef := 0%float;
     in_tone := 0; tone_start_ms := 0; silence_start_ms := 0;
     last_tone_duration_ms := 0; last_silence_duration_ms := 0;
     tone_type := 0; consecutive_busy := 0; consecutive_ringback := 0;
     start_time_ms := 0; max_detect_time_ms := 60000;
     autohangup := 1; hangup_on_busy := 1; hangup_on_ringback := 0 |}.

Definition frame_of (samples : list Z) : switch_frame_t :=
  {| data := Some samples; datalen := 2 * Z.of_nat (List.length samples) |}.

Definition silence (count : nat) : list Z := repeat 0 count.

(** A square wave of period 18 samples (about 444 Hz). *)
Definition square_wave (count : nat) (amplitude : Z) : list Z :=
  map (fun i => if Z.of_nat i mod 18 <? 9 then amplitude else - amplitude)
      (seq 0 count).

(** The highest frequency the sampling carries, 4 kHz. *)
Definition nyquist_wave (count : nat) (amplitude : Z) : list Z :=
  map (fun i => if Nat.even i then amplitude else - amplitude) (seq 0 count).

(** A full Goertzel window of silence, then a burst. *)
Definition late_burst : list Z := silence 205 ++ repeat 10000 115.

Definition silent_frame : switch_frame_t := frame_of (silence 80).

Definition loud_frame : switch_frame_t := frame_of (square_wave 80 8000).

Definition empty_frame : switch_frame_t := frame_of [].

Definition null_frame : switch_frame_t := {| data := None; datalen := 160 |}.

Fixpoint segment_frames (frame : switch_frame_t) (count : nat) (t_ms : Z)
  : list (switch_frame_t * Z) :=
  match count with
  | O => []
  | S count' =>
      (frame, 1000 * (t_ms + 10)) :: segment_frames frame count' (t_ms + 10)
  end.

(** A stream from its segments, each a tone flag and a duration in ms,
    starting at [t_ms]. *)
Fixpoint cadence (segments : list (bool * Z)) (t_ms : Z)
  : list (switch_frame_t * Z) :=
  match segments with
  | [] => []
  | (tone, ms) :: rest =>
      segment_frames (if tone then loud_frame else silent_frame)
                     (Z.to_nat (ms / 10)) t_ms
      ++ cadence rest (t_ms + ms)
  end.

(** Three cycles of the busy tone, 350 ms on and 350 ms off, after 350 ms
    of silence. *)
Definition busy_cadence : list (switch_frame_t * Z) :=
  cadence [ (false, 350); (true, 350); (false, 350); (true, 350);
            (false, 350); (true, 350); (false, 350) ] 0.

(** Three cycles of the congestion tone, 700 ms on and 700 ms off. *)
Definition congestion_cadence : list (switch_frame_t * Z) :=
  cadence [ (false, 700); (true, 700); (false, 700); (true, 700);
            (false, 700); (true, 700); (false, 700) ] 0.



(** Two cycles of the ringback tone, 1000 ms on and 4000 ms off, after
    4000 ms of silence. *)
Definition ringback_cadence : list (switch_frame_t * Z) :=
  cadence [ (false, 4000); (true, 1000); (false, 4000); (true, 1000);
            (false, 4000) ] 0.

(** The session 61 s later, when a frame has met the timeout. *)
Definition timed_out_session : machine (D:=float) :=
  snd (ringback_media_callback started_session silent_frame 61000000).

(** ** The coefficient in the words of the specification

    [k = round(N * f_target / f_sample)], the nearest integer bin, and the
    coefficient [2 cos(2 pi k / N)], over the real numbers. *)

Definition round_half_up (num den : Z) : Z := (2 * num + den) / (2 * den).

Definition spec_bin : Z := round_half_up (GOERTZEL_N * TARGET_FREQ) SAMPLE_RATE.

Definition spec_goertzel_coefficient : R :=
  (2 * cos (2 * PI * IZR spec_bin / IZR GOERTZEL_N))%R.

(** * The API command and auxiliary notions *)

Section Api.

Context {D : Type} `{Double D}.

(** What [switch_core_session_locate] finds behind a uuid: the session with
    what the callback reads and writes, the two channel variables
    [start_ringback] looks up (as [atoi] and [switch_true] see them) and the
    status its media bug creation will return. *)
Record located_session : Type := {
  session_machine : machine (D:=D);
  ringback_maxdetecttime : option Z;
  ringback_autohangup : option Z;
  media_bug_status : switch_status_t
}.

Definition newline : string := String (Ascii.ascii_of_nat 10) EmptyString.

(** [api_uuid_start_ringback]. [args] is [None] for a null pointer; the
    result is the status returned, the text written to the stream and, when
    a session was located, that session after the call. The [cmd] and
    [session] arguments of the C function are not read. *)
Definition api_uuid_start_ringback (args : option string)
    (switch_core_session_locate : string -> option located_session)
    (micro_now : Z) : switch_status_t * string * option (machine (D:=D)) :=
  match args with
  | None =>
      (SWITCH_STATUS_SUCCESS,
       ("-ERR Usage: uuid_start_ringback <uuid>" ++ newline)%string, None)
  | Some EmptyString =>
      (SWITCH_STATUS_SUCCESS,
       ("-ERR Usage: uuid_start_ringback <uuid>" ++ newline)%string, None)
  | Some uuid =>
      match switch_core_session_locate uuid with
      | None =>
          (SWITCH_STATUS_SUCCESS, ("-ERR No such channel" ++ newline)%string, None)
      | Some target =>
          let '(status, m) :=
            start_ringback micro_now (ringback_maxdetecttime target)
              (ringback_autohangup target) (media_bug_status target)
              (session_machine target) in
          (SWITCH_STATUS_SUCCESS,
           match status with
           | SWITCH_STATUS_SUCCESS => ("+OK" ++ newline)%string
           | SWITCH_STATUS_FALSE => ("-ERR" ++ newline)%string
           end,
           Some m)
      end
  end.

(** The tracker run over the frame decisions of a stream, each with its
    elapsed time; the value returned to the host is dropped. *)
Fixpoint track_stream (decisions : list (bool * Z)) (st : ringback_state_t (D:=D))
    (ch : channel) : ringback_state_t (D:=D) :=
  match decisions with
  | [] => st
  | (tone, now_ms) :: rest =>
      track_stream rest (snd (fst (track_segment tone now_ms st ch))) ch
  end.

(** The three groups of fields of the state: what the session was started
    with, what the filter keeps and what the tracker keeps. *)
Definition configuration (st : ringback_state_t (D:=D)) : Z * Z * Z * Z * Z :=
  (start_time_ms st, max_detect_time_ms st, autohangup st, hangup_on_busy st,
   hangup_on_ringback st).

Definition filter_fields (st : ringback_state_t (D:=D)) : Z * D * D * D :=
  (sample_count st, goertzel_s1 st, goertzel_s2 st, goertzel_coef st).

Definition tracker_fields (st : ringback_state_t (D:=D))
  : Z * Z * Z * Z * Z * Z * Z * Z * Z :=
  (running st, in_tone st, tone_start_ms st, silence_start_ms st,
   last_tone_duration_ms st, last_silence_duration_ms st, tone_type st,
   consecutive_busy st, consecutive_ringback st).

(** A frame the callback goes on with: a data pointer and at least one
    sample. *)
Definition carries_data (frame : switch_frame_t) : bool :=
  match data frame with
  | None => false
  | Some _ => 2 <=? datalen frame
  end.

(** The timeout test of line 167 at a clock reading. *)
Definition past_maximum (st : ringback_state_t (D:=D)) (micro_now : Z) : bool :=
  (0 <? max_detect_time_ms st) &&
  (max_detect_time_ms st <? uint32 (Z.quot micro_now 1000 - start_time_ms st)).

(** No frame of the stream is one that stops the session: none carries
    data at a clock reading past the maximum. *)
Definition in_time (st : ringback_state_t (D:=D))
    (frames : list (switch_frame_t * Z)) : bool :=
  forallb (fun ft => negb (carries_data (fst ft) && past_maximum st (snd ft)))
          frames.

End Api.

(** The sum of the squares of the samples, in integers. *)
Definition sum_squares (samples : list Z) : Z :=
  fold_left (fun sum s => sum + s * s) samples 0.

(** A state over the real numbers with the module's coefficient. *)
Definition real_state (s1 s2 : R) : ringback_state_t (D:=R) :=
  {| running := 1; sample_count := 0;
     goertzel_s1 := s1; goertzel_s2 := s2;
     goertzel_coef := init_goertzel (H:=Double_R) 0%R;
     in_tone := 0; tone_start_ms := 0; silence_start_ms := 0;
     last_tone_duration_ms := 0; last_silence_duration_ms := 0;
     tone_type := 0; consecutive_busy := 0; consecutive_ringback := 0;
     start_time_ms := 0; max_detect_time_ms := 60000;
     autohangup := 1; hangup_on_busy := 1; hangup_on_ringback := 0 |}.

(** The host of one session, for the API command on binary64. *)
Definition one_session_host (uuid : string) (bug_status : switch_status_t)
  : string -> option (located_session (D:=float)) :=
  fun key =>
    if String.eqb key uuid then
      Some {| session_machine := idle_machine;
              ringback_maxdetecttime := Some 30;
              ringback_autohangup := None;
              media_bug_status := bug_status |}
    else None.

(** * Properties *)

(** ** Machine integers and the predicates *)

Lemma sint32_small (z : Z) : - 2 ^ 31 <= z < 2 ^ 31 -> sint32 z = z.
Proof.
  intros Hz. unfold sint32.
  rewrite Z.mod_small by lia. lia.
Qed.

Lemma match_busy_pattern_spec (on_ms off_ms : Z) :
  match_busy_pattern on_ms off_ms = true <->
  (BUSY_ON_MIN <= on_ms <= BUSY_ON_MAX /\ BUSY_OFF_MIN <= off_ms <= BUSY_OFF_MAX).
Proof.
  unfold match_busy_pattern.
  rewrite !andb_true_iff, !Z.leb_le. tauto.
Qed.

Lemma match_ringback_pattern_spec (on_ms off_ms : Z) :
  match_ringback_pattern on_ms off_ms = true <->
  (RINGBACK_ON_MIN <= on_ms <= RINGBACK_ON_MAX /\
   RINGBACK_OFF_MIN <= off_ms <= RINGBACK_OFF_MAX).
Proof.
  unfold match_ringback_pattern.
  rewrite !andb_true_iff, !Z.leb_le. tauto.
Qed.

Lemma match_congestion_pattern_spec (on_ms off_ms : Z) :
  match_congestion_pattern on_ms off_ms = true <->
  (CONGESTION_ON_MIN <= on_ms <= CONGESTION_ON_MAX /\
   CONGESTION_OFF_MIN <= off_ms <= CONGESTION_OFF_MAX).
Proof.
  unfold match_congestion_pattern.
  rewrite !andb_true_iff, !Z.leb_le. tauto.
Qed.

Ltac template_bounds :=
  unfold BUSY_ON_MIN, BUSY_ON_MAX, BUSY_OFF_MIN, BUSY_OFF_MAX,
    RINGBACK_ON_MIN, RINGBACK_ON_MAX, RINGBACK_OFF_MIN, RINGBACK_OFF_MAX,
    CONGESTION_ON_MIN, CONGESTION_ON_MAX, CONGESTION_OFF_MIN,
    CONGESTION_OFF_MAX in *.

(** A predicate that holds is known by its bounds; one that fails is known
    by a violated bound. *)
Lemma not_true_false (b : bool) : b = false <-> ~ b = true.
Proof. destruct b; split; congruence. Qed.

(** With an off-duration of zero no template can match: zero is below every
    lower off bound. *)
Lemma match_busy_pattern_off_zero (on_ms : Z) : match_busy_pattern on_ms 0 = false.
Proof.
  apply not_true_false. rewrite match_busy_pattern_spec. template_bounds. lia.
Qed.

Lemma match_ringback_pattern_off_zero (on_ms : Z) :
  match_ringback_pattern on_ms 0 = false.
Proof.
  apply not_true_false. rewrite match_ringback_pattern_spec. template_bounds. lia.
Qed.

(** C9: the busy predicate holds on the whole square [250,450] x [250,450],
    fails for an on-duration of 200 or of 500 whatever the off-duration in
    [250,450], and is exactly the test of the two closed intervals (a
    function of its two arguments, with nothing else read or written). *)
Theorem busy_template_closed_intervals :
  (forall on_ms off_ms,
      250 <= on_ms <= 450 -> 250 <= off_ms <= 450 ->
      match_busy_pattern on_ms off_ms = true) /\
  (forall off_ms,
      250 <= off_ms <= 450 ->
      match_busy_pattern 200 off_ms = false /\
      match_busy_pattern 500 off_ms = false) /\
  (forall on_ms off_ms,
      match_busy_pattern on_ms off_ms = true <->
      250 <= on_ms <= 450 /\ 250 <= off_ms <= 450).
Proof.
  split; [| split].
  - intros on_ms off_ms Hon Hoff.
    apply match_busy_pattern_spec. template_bounds. lia.
  - intros off_ms Hoff.
    split; apply not_true_false; rewrite match_busy_pattern_spec;
      template_bounds; lia.
  - intros on_ms off_ms. rewrite match_busy_pattern_spec. template_bounds. lia.
Qed.

Lemma busy_template_closed_intervals_witness :
  match_busy_pattern 350 350 = true /\
  (match_busy_pattern 200 350 = false /\ match_busy_pattern 500 350 = false) /\
  (match_busy_pattern 250 450 = true <-> 250 <= 250 <= 450 /\ 250 <= 450 <= 450).
Proof.
  split; [| split].
  - apply (proj1 busy_template_closed_intervals 350 350); lia.
  - apply (proj1 (proj2 busy_template_closed_intervals) 350); lia.
  - apply (proj2 (proj2 busy_template_closed_intervals) 250 450).
Defined.

(** C10: no pair of durations satisfies two of the three predicates: the
    on-duration ranges [250,450], [900,1200] and [600,800] are pairwise
    disjoint. *)
Theorem templates_mutually_exclusive (on_ms off_ms : Z) :
  match_busy_pattern on_ms off_ms && match_ringback_pattern on_ms off_ms = false /\
  match_busy_pattern on_ms off_ms && match_congestion_pattern on_ms off_ms = false /\
  match_ringback_pattern on_ms off_ms && match_congestion_pattern on_ms off_ms = false.
Proof.
  repeat split; apply not_true_false; rewrite andb_true_iff;
    rewrite ?match_busy_pattern_spec, ?match_ringback_pattern_spec,
      ?match_congestion_pattern_spec; template_bounds; lia.
Qed.

(** ** The callback on a session that has stopped, or has run out of time *)

Section Callback.

Context {D : Type} `{Double D}.

Implicit Types (state st : ringback_state_t (D:=D)) (m : machine (D:=D)).
Implicit Types (ch : channel) (frame : switch_frame_t).

Lemma callback_not_running m state frame micro_now :
  user_data m = Some state -> running state = 0 ->
  ringback_media_callback m frame micro_now = (SWITCH_TRUE, m).
Proof.
  intros Hud Hrun. unfold ringback_media_callback.
  rewrite Hud, Hrun. reflexivity.
Qed.

Lemma deliver_not_running m state frames :
  user_data m = Some state -> running state = 0 -> deliver m frames = m.
Proof.
  intros Hud Hrun. induction frames as [| [frame micro_now] rest IH].
  - reflexivity.
  - simpl. rewrite (callback_not_running m state) by assumption. exact IH.
Qed.

(** The clock reading of a call, as milliseconds since the session start. *)
Lemma callback_timeout m state frame buffer micro_now :
  user_data m = Some state -> running state <> 0 ->
  data frame = Some buffer -> 2 <= datalen frame ->
  0 < max_detect_time_ms state ->
  max_detect_time_ms state
    < uint32 (Z.quot micro_now 1000 - start_time_ms state) ->
  ringback_media_callback m frame micro_now =
  (SWITCH_FALSE,
   {| user_data := Some (set_running 0 state);
      goertzel_coefficient := goertzel_coefficient m;
      session_channel :=
        set_ringback_result (set_running 0 state) (session_channel m) |}).
Proof.
  intros Hud Hrun Hdata Hlen Hmax Hnow. unfold ringback_media_callback.
  rewrite Hud, Hdata.
  destruct (running state =? 0) eqn:E; [apply Z.eqb_eq in E; contradiction |].
  destruct (datalen frame =? 0) eqn:E0; [apply Z.eqb_eq in E0; lia |].
  assert (Hq : 1 <= Z.quot (datalen frame) 2).
  { apply Z.quot_le_lower_bound; lia. }
  destruct (Z.quot (datalen frame) 2 <=? 0) eqn:E1; [apply Z.leb_le in E1; lia |].
  apply Z.ltb_lt in Hmax, Hnow. rewrite Hmax, Hnow. reflexivity.
Qed.

(** C7: once the running flag is cleared, a frame delivery returns at once:
    the state, the cached coefficient and the channel (so the reported
    verdict, and the hang-up requests made) are what they were, whatever the
    frame and the clock; so is it after any number of deliveries. *)
Theorem stopped_session_ignores_frames m state :
  user_data m = Some state -> running state = 0 ->
  (forall frame micro_now,
      ringback_media_callback m frame micro_now = (SWITCH_TRUE, m)) /\
  (forall frames, deliver m frames = m).
Proof.
  intros Hud Hrun. split.
  - intros frame micro_now. now apply callback_not_running with state.
  - intros frames. now apply deliver_not_running with state.
Qed.

End Callback.

(** ** The template cascade *)

Section Cascade.

Context {D : Type} `{Double D}.

Implicit Types (state st : ringback_state_t (D:=D)) (m : machine (D:=D)).
Implicit Types (ch : channel) (frame : switch_frame_t).

(** The state and the channel the cascade leaves when BUSY fires. *)
Lemma classify_segment_busy_fires on_ms off_ms st ch :
  match_busy_pattern on_ms off_ms = true ->
  2 <= sint32 (consecutive_busy st + 1) ->
  classify_segment on_ms off_ms st ch =
  (SWITCH_FALSE,
   set_running 0 (set_tone_type RINGBACK_TONE_BUSY
     (set_consecutive_ringback 0
       (set_consecutive_busy (sint32 (consecutive_busy st + 1)) st))),
   let ch' :=
     set_ringback_result
       (set_running 0 (set_tone_type RINGBACK_TONE_BUSY
         (set_consecutive_ringback 0
           (set_consecutive_busy (sint32 (consecutive_busy st + 1)) st)))) ch in
   if hangup_on_busy st =? 0 then ch'
   else ch' ++ [switch_channel_hangup SWITCH_CAUSE_USER_BUSY]).
Proof.
  intros Hb Hc. unfold classify_segment. rewrite Hb. cbn.
  apply Z.leb_le in Hc. rewrite Hc. reflexivity.
Qed.

Lemma classify_segment_busy_counts on_ms off_ms st ch :
  match_busy_pattern on_ms off_ms = true ->
  sint32 (consecutive_busy st + 1) < 2 ->
  classify_segment on_ms off_ms st ch =
  (SWITCH_TRUE,
   set_consecutive_ringback 0
     (set_consecutive_busy (sint32 (consecutive_busy st + 1)) st),
   ch).
Proof.
  intros Hb Hc. unfold classify_segment. rewrite Hb. cbn.
  apply Z.leb_gt in Hc. rewrite Hc. reflexivity.
Qed.

Lemma classify_segment_ringback on_ms off_ms st ch :
  match_busy_pattern on_ms off_ms = false ->
  match_ringback_pattern on_ms off_ms = true ->
  classify_segment on_ms off_ms st ch =
  (SWITCH_TRUE,
   (if 1 <=? sint32 (consecutive_ringback st + 1)
    then set_tone_type RINGBACK_TONE_RINGBACK else fun s => s)
     (set_consecutive_busy 0
       (set_consecutive_ringback (sint32 (consecutive_ringback st + 1)) st)),
   ch).
Proof.
  intros Hb Hr. unfold classify_segment. rewrite Hb, Hr. cbn.
  destruct (1 <=? sint32 (consecutive_ringback st + 1)); reflexivity.
Qed.

Lemma classify_segment_no_match on_ms off_ms st ch :
  match_busy_pattern on_ms off_ms = false ->
  match_ringback_pattern on_ms off_ms = false ->
  classify_segment on_ms off_ms st ch =
  (SWITCH_TRUE, set_consecutive_ringback 0 (set_consecutive_busy 0 st), ch).
Proof.
  intros Hb Hr. unfold classify_segment. rewrite Hb, Hr. reflexivity.
Qed.

(** The cascade reads the two durations through the busy and the ringback
    predicate only, busy first. *)
Lemma classify_segment_reads_two_templates on_ms off_ms on_ms' off_ms' st ch :
  match_busy_pattern on_ms off_ms = match_busy_pattern on_ms' off_ms' ->
  match_ringback_pattern on_ms off_ms = match_ringback_pattern on_ms' off_ms' ->
  classify_segment on_ms off_ms st ch = classify_segment on_ms' off_ms' st ch.
Proof.
  intros Hb Hr. unfold classify_segment. rewrite Hb, Hr. reflexivity.
Qed.

(** C3, as the code has it: the congestion predicate holds on the whole of
    [600,800] x [500,900], but the cascade consults the busy template and
    then the ringback template and nothing else. A pair in that range
    matches neither, so the cascade zeroes both counters, returns
    [SWITCH_TRUE] and leaves the tone type, the running flag and the channel
    alone: there is no congestion verdict. *)
Theorem congestion_pair_resets_counters on_ms off_ms st ch :
  600 <= on_ms <= 800 -> 500 <= off_ms <= 900 ->
  match_congestion_pattern on_ms off_ms = true /\
  match_busy_pattern on_ms off_ms = false /\
  match_ringback_pattern on_ms off_ms = false /\
  classify_segment on_ms off_ms st ch =
    (SWITCH_TRUE, set_consecutive_ringback 0 (set_consecutive_busy 0 st), ch) /\
  tone_type (snd (fst (classify_segment on_ms off_ms st ch))) = tone_type st /\
  running (snd (fst (classify_segment on_ms off_ms st ch))) = running st /\
  (forall on_ms' off_ms',
      match_busy_pattern on_ms' off_ms' = false ->
      match_ringback_pattern on_ms' off_ms' = false ->
      classify_segment on_ms' off_ms' st ch =
      classify_segment on_ms off_ms st ch).
Proof.
  intros Hon Hoff.
  assert (Hc : match_congestion_pattern on_ms off_ms = true).
  { apply match_congestion_pattern_spec. template_bounds. lia. }
  assert (Hb : match_busy_pattern on_ms off_ms = false).
  { apply not_true_false. rewrite match_busy_pattern_spec. template_bounds. lia. }
  assert (Hr : match_ringback_pattern on_ms off_ms = false).
  { apply not_true_false. rewrite match_ringback_pattern_spec.
    template_bounds. lia. }
  rewrite (classify_segment_no_match on_ms off_ms st ch Hb Hr).
  repeat split; try assumption.
  intros on_ms' off_ms' Hb' Hr'. now apply classify_segment_no_match.
Qed.

End Cascade.

(** ** Timeout and tone decision *)

Section Frames.

Context {D : Type} `{Double D}.

Implicit Types (state st : ringback_state_t (D:=D)) (m : machine (D:=D)).
Implicit Types (ch : channel) (frame : switch_frame_t).

(** C6, as the code has it: a frame that carries data (a data pointer and at
    least two bytes), delivered to a running session whose maximum detection
    time is positive at a clock reading past that maximum, stops the
    session: the callback returns [SWITCH_FALSE], clears the running flag
    and writes the result once; with no busy or ringback tone type recorded
    the finish cause written is "timeout". Every later delivery leaves the
    state and the channel as they are. *)
Theorem timeout_reported_once m state frame buffer micro_now :
  user_data m = Some state -> running state <> 0 ->
  data frame = Some buffer -> 2 <= datalen frame ->
  0 < max_detect_time_ms state ->
  max_detect_time_ms state
    < uint32 (Z.quot micro_now 1000 - start_time_ms state) ->
  tone_type state <> RINGBACK_TONE_BUSY ->
  tone_type state <> RINGBACK_TONE_RINGBACK ->
  let m' :=
    {| user_data := Some (set_running 0 state);
       goertzel_coefficient := goertzel_coefficient m;
       session_channel :=
         session_channel m ++
         [ switch_channel_set_variable "ringback_finish_cause" "timeout";
           switch_channel_set_variable "ringback_tone" "unknown";
           switch_channel_set_variable "ringback_result" "unknown" ] |} in
  ringback_media_callback m frame micro_now = (SWITCH_FALSE, m') /\
  forall frames, deliver m' frames = m'.
Proof.
  intros Hud Hrun Hdata Hlen Hmax Hnow Hbusy Hring m'. split.
  - rewrite (callback_timeout m state frame buffer micro_now) by assumption.
    unfold m', set_ringback_result. cbn.
    apply Z.eqb_neq in Hbusy, Hring. rewrite Hbusy, Hring. reflexivity.
  - intros frames.
    apply deliver_not_running with (set_running 0 state); reflexivity.
Qed.

Lemma detect_tone_has_tone samples samples_per_frame st :
  has_tone (snd (detect_tone samples samples_per_frame st)) =
  (calc_frame_energy samples samples_per_frame >? d_of_int ENERGY_THRESHOLD)%dbl.
Proof.
  unfold detect_tone.
  destruct (goertzel_window samples st) as [st' goertzel_energy].
  destruct (Z.quot GOERTZEL_N 2 <=? sample_count st'); reflexivity.
Qed.

Lemma classify_segment_in_tone on_ms off_ms st ch :
  in_tone (snd (fst (classify_segment on_ms off_ms st ch))) = in_tone st.
Proof.
  unfold classify_segment.
  destruct (match_busy_pattern on_ms off_ms).
  - cbn. destruct (2 <=? sint32 (consecutive_busy st + 1)); reflexivity.
  - destruct (match_ringback_pattern on_ms off_ms); [| reflexivity].
    cbn. destruct (1 <=? sint32 (consecutive_ringback st + 1)); reflexivity.
Qed.

(** After a frame the tracker is in a tone exactly when the frame was
    decided to carry one. *)
Lemma track_segment_in_tone (tone : bool) now_ms st ch :
  in_tone (snd (fst (track_segment tone now_ms st ch))) <> 0 <-> tone = true.
Proof.
  unfold track_segment.
  destruct tone, (in_tone st =? 0) eqn:E; cbn.
  - destruct (0 <? silence_start_ms st); cbn; (split; [reflexivity | discriminate]).
  - apply Z.eqb_neq in E. tauto.
  - apply Z.eqb_eq in E.
    destruct (silence_start_ms st =? 0); cbn; split; congruence.
  - rewrite classify_segment_in_tone. cbn. split; congruence.
Qed.

(** C1, as the code has it: the tone decision of a frame is the test of its
    RMS energy against [ENERGY_THRESHOLD] and nothing else: the filter state
    the frame meets has no part in it, and after the callback has processed
    a frame the tracker is in a tone exactly when that test held. *)
Theorem tone_present_is_energy_alone :
  (forall samples samples_per_frame st,
      has_tone (snd (detect_tone samples samples_per_frame st)) =
      (calc_frame_energy samples samples_per_frame
         >? d_of_int ENERGY_THRESHOLD)%dbl) /\
  (forall samples samples_per_frame st1 st2,
      has_tone (snd (detect_tone samples samples_per_frame st1)) =
      has_tone (snd (detect_tone samples samples_per_frame st2))) /\
  (forall m state frame buffer micro_now state',
      user_data m = Some state -> running state <> 0 ->
      data frame = Some buffer -> 2 <= datalen frame ->
      (0 <? max_detect_time_ms state) &&
      (max_detect_time_ms state
         <? uint32 (Z.quot micro_now 1000 - start_time_ms state)) = false ->
      user_data (snd (ringback_media_callback m frame micro_now)) = Some state' ->
      let samples_per_frame := Z.quot (datalen frame) 2 in
      let samples := firstn (Z.to_nat samples_per_frame) buffer in
      in_tone state' <> 0 <->
      (calc_frame_energy samples samples_per_frame
         >? d_of_int ENERGY_THRESHOLD)%dbl = true).
Proof.
  split; [| split].
  - apply detect_tone_has_tone.
  - intros samples n st1 st2. now rewrite !detect_tone_has_tone.
  - intros m state frame buffer micro_now state' Hud Hrun Hdata Hlen Hto Hres n samples.
    unfold ringback_media_callback in Hres.
    rewrite Hud, Hdata in Hres.
    destruct (running state =? 0) eqn:E; [apply Z.eqb_eq in E; contradiction |].
    destruct (datalen frame =? 0) eqn:E0; [apply Z.eqb_eq in E0; lia |].
    assert (Hq : 1 <= Z.quot (datalen frame) 2).
    { apply Z.quot_le_lower_bound; lia. }
    destruct (Z.quot (datalen frame) 2 <=? 0) eqn:E1; [apply Z.leb_le in E1; lia |].
    rewrite Hto in Hres.
    fold n samples in Hres.
    pose proof (detect_tone_has_tone samples n
                  (set_goertzel_coef (init_goertzel (goertzel_coefficient m)) state))
      as Hdec.
    destruct (detect_tone samples n _) as [st1 decision].
    cbn [snd] in Hdec. rewrite <- Hdec.
    pose proof (track_segment_in_tone (has_tone decision)
                  (uint32 (Z.quot micro_now 1000 - start_time_ms state)) st1
                  (session_channel m)) as Htrack.
    destruct (track_segment _ _ st1 _) as [[result st2] ch2].
    cbn in Hres, Htrack. injection Hres as <-. exact Htrack.
Qed.

End Frames.

(** ** The off-duration the callback hands to the cascade *)

Section ZeroOff.

Context {D : Type} `{Double D}.

Implicit Types (state st : ringback_state_t (D:=D)) (m : machine (D:=D)).
Implicit Types (ch : channel) (frame : switch_frame_t).

(** The tracker calls the cascade with an off-duration of 0, where no
    template matches: whatever the frame decision and the clock, it returns
    [SWITCH_TRUE] and leaves the tone type, the running flag and the channel
    as they were; when a tone ends both counters are zeroed. *)
Lemma track_segment_off_zero (tone : bool) now_ms st ch :
  exists st',
    track_segment tone now_ms st ch = (SWITCH_TRUE, st', ch) /\
    tone_type st' = tone_type st /\ running st' = running st /\
    (tone = false -> in_tone st <> 0 ->
     consecutive_busy st' = 0 /\ consecutive_ringback st' = 0 /\
     last_tone_duration_ms st' = uint32 (now_ms - tone_start_ms st)).
Proof.
  unfold track_segment.
  destruct tone, (in_tone st =? 0) eqn:E; cbn.
  - eexists. split; [reflexivity |].
    destruct (0 <? silence_start_ms st); cbn; repeat split; discriminate.
  - eexists. split; [reflexivity |]. repeat split; discriminate.
  - apply Z.eqb_eq in E.
    destruct (silence_start_ms st =? 0); eexists; (split; [reflexivity |]);
      cbn; repeat split; contradiction.
  - rewrite classify_segment_no_match
      by (apply match_busy_pattern_off_zero || apply match_ringback_pattern_off_zero).
    eexists. split; [reflexivity |]. cbn. repeat split.
Qed.

(** The filter touches its own fields only. *)
Lemma goertzel_window_tone_type samples st :
  tone_type (fst (goertzel_window samples st)) = tone_type st.
Proof.
  revert st. induction samples as [| sample rest IH]; intros st.
  - reflexivity.
  - cbn [goertzel_window].
    destruct (GOERTZEL_N <=? sample_count (goertzel_process_sample st sample)).
    + reflexivity.
    + rewrite IH. reflexivity.
Qed.

Lemma detect_tone_tone_type samples samples_per_frame st :
  tone_type (fst (detect_tone samples samples_per_frame st)) = tone_type st.
Proof.
  unfold detect_tone.
  pose proof (goertzel_window_tone_type samples st) as Hw.
  destruct (goertzel_window samples st) as [st' goertzel_energy].
  destruct (Z.quot GOERTZEL_N 2 <=? sample_count st'); exact Hw.
Qed.

(** So no delivery ever records a tone type: the busy and the ringback
    branch of the callback are never taken. *)
Lemma callback_keeps_tone_type m frame micro_now :
  option_map tone_type
    (user_data (snd (ringback_media_callback m frame micro_now)))
  = option_map tone_type (user_data m).
Proof.
  unfold ringback_media_callback.
  destruct (user_data m) as [state |] eqn:Hud; [| cbn [snd]; now rewrite Hud].
  destruct (running state =? 0); [cbn [snd]; now rewrite Hud |].
  destruct (data frame) as [buffer |]; [| cbn [snd]; now rewrite Hud].
  destruct (datalen frame =? 0); [cbn [snd]; now rewrite Hud |].
  destruct (Z.quot (datalen frame) 2 <=? 0); [cbn [snd]; now rewrite Hud |].
  destruct ((0 <? max_detect_time_ms state) && _); [reflexivity |].
  pose proof (detect_tone_tone_type
                (firstn (Z.to_nat (Z.quot (datalen frame) 2)) buffer)
                (Z.quot (datalen frame) 2)
                (set_goertzel_coef (init_goertzel (goertzel_coefficient m)) state))
    as Hdetect.
  destruct (detect_tone _ _ _) as [st1 decision].
  destruct (track_segment_off_zero (has_tone decision)
              (uint32 (Z.quot micro_now 1000 - start_time_ms state)) st1
              (session_channel m)) as (st2 & -> & Htone & _).
  cbn in *. now rewrite Htone, Hdetect.
Qed.

Lemma deliver_keeps_tone_type m frames :
  option_map tone_type (user_data (deliver m frames))
  = option_map tone_type (user_data m).
Proof.
  revert m. induction frames as [| [frame micro_now] rest IH]; intros m.
  - reflexivity.
  - cbn [deliver]. rewrite IH. apply callback_keeps_tone_type.
Qed.

End ZeroOff.

(** ** Runs on binary64 *)

Lemma started_session_state : user_data started_session = Some started_state.
Proof. reflexivity. Qed.

(** C2 at a stream of three busy cycles (350 ms on, 350 ms off, in 10 ms
    frames): the tracker has measured a tone of 350 ms after a silence of
    350 ms, a pair the busy template accepts, yet no pair was counted and no
    verdict given, and the session still runs; the cascade was given the
    off-duration 0, at which the busy and the ringback predicate fail for
    every on-duration, so that the tracker never returns [SWITCH_FALSE] and
    never changes the tone type: whatever the stream, the session records
    no tone type. *)
Theorem busy_cadence_is_tested_with_zero_off :
  match_busy_pattern 350 350 = true /\
  (exists state,
      user_data (deliver started_session busy_cadence) = Some state /\
      last_tone_duration_ms state = 350 /\
      last_silence_duration_ms state = 350 /\
      consecutive_busy state = 0 /\ tone_type state = 0 /\ running state = 1) /\
  session_channel (deliver started_session busy_cadence) =
    [switch_channel_set_variable "ringback_active" "true"] /\
  (forall on_ms,
      match_busy_pattern on_ms 0 = false /\
      match_ringback_pattern on_ms 0 = false) /\
  (forall (tone : bool) now_ms (st : ringback_state_t (D:=float)) ch,
      fst (fst (track_segment tone now_ms st ch)) = SWITCH_TRUE /\
      tone_type (snd (fst (track_segment tone now_ms st ch))) = tone_type st) /\
  (forall frames,
      option_map tone_type (user_data (deliver started_session frames)) = Some 0).
Proof.
  split; [reflexivity |].
  split; [eexists; split; [vm_compute; reflexivity | repeat split] |].
  split; [vm_compute; reflexivity |].
  split.
  - intros on_ms. split.
    + apply match_busy_pattern_off_zero.
    + apply match_ringback_pattern_off_zero.
  - split.
    + intros tone now_ms st ch.
      destruct (track_segment_off_zero tone now_ms st ch) as (st' & -> & Htone & _).
      split; [reflexivity | exact Htone].
    + intros frames. now rewrite deliver_keeps_tone_type.
Qed.


(** C5 at the ringback cadence. After two cycles the tracker holds a pair
    the ringback template accepts (tone 1000 ms, silence before it 4000 ms)
    while no ringback is recorded: the tone type and the ringback counter
    are 0; the session does run on, and when it times out it reports
    "timeout" and "unknown", not the ringback it has heard. Whatever the
    measured durations, a tone that ends leaves the ringback counter at 0
    and the tone type as it was, and no stream ever brings the started
    session to the ringback tone type. *)
Theorem ringback_pair_is_never_recorded :
  match_ringback_pattern 1000 4000 = true /\
  (exists state,
      user_data (deliver started_session ringback_cadence) = Some state /\
      last_tone_duration_ms state = 1000 /\
      last_silence_duration_ms state = 4000 /\
      tone_type state = 0 /\ consecutive_ringback state = 0 /\
      running state = 1) /\
  session_channel (deliver started_session ringback_cadence) =
    [switch_channel_set_variable "ringback_active" "true"] /\
  fst (ringback_media_callback (deliver started_session ringback_cadence)
         silent_frame 61000000) = SWITCH_FALSE /\
  session_channel
    (snd (ringback_media_callback (deliver started_session ringback_cadence)
            silent_frame 61000000)) =
    [ switch_channel_set_variable "ringback_active" "true";
      switch_channel_set_variable "ringback_finish_cause" "timeout";
      switch_channel_set_variable "ringback_tone" "unknown";
      switch_channel_set_variable "ringback_result" "unknown" ] /\
  (forall now_ms (st : ringback_state_t (D:=float)) ch,
      in_tone st <> 0 ->
      consecutive_ringback (snd (fst (track_segment false now_ms st ch))) = 0 /\
      tone_type (snd (fst (track_segment false now_ms st ch))) = tone_type st) /\
  (forall frames state,
      user_data (deliver started_session frames) = Some state ->
      tone_type state <> RINGBACK_TONE_RINGBACK).
Proof.
  split; [reflexivity |].
  split; [eexists; split; [vm_compute; reflexivity | repeat split] |].
  split; [vm_compute; reflexivity |].
  split; [vm_compute; reflexivity |].
  split; [vm_compute; reflexivity |].
  split.
  - intros now_ms st ch Hin.
    destruct (track_segment_off_zero false now_ms st ch)
      as (st' & -> & Htone & _ & Hedge).
    destruct (Hedge eq_refl Hin) as (_ & Hring & _).
    split; [exact Hring | exact Htone].
  - intros frames state Hud.
    pose proof (deliver_keeps_tone_type started_session frames) as Hkeep.
    rewrite Hud in Hkeep. cbn in Hkeep. injection Hkeep as ->. discriminate.
Qed.

(** The energy gate on a loud frame and on silence. *)
Example loud_frame_has_tone :
  has_tone (snd (detect_tone (square_wave 80 8000) 80 started_state)) = true.
Proof. vm_compute. reflexivity. Qed.

Example silent_frame_has_no_tone :
  has_tone (snd (detect_tone (silence 80) 80 started_state)) = false.
Proof. vm_compute. reflexivity. Qed.

(** C1 at 40 ms of a 4 kHz tone of amplitude 1000: the frame energy is 1000,
    the 450 Hz energy of its full Goertzel window is below 1, far from the
    threshold of 1000, and the frame is decided to carry a tone; the same
    for a window of silence followed by a burst, whose 450 Hz energy is 0
    whatever the coefficient. Delivered to a fresh session, the first frame
    starts a tone. *)
Lemma nyquist_frame_counts_as_tone :
  let st := set_goertzel_coef (init_goertzel 0%float) started_state in
  let decision := snd (detect_tone (nyquist_wave 320 1000) 320 st) in
  let decision' := snd (detect_tone late_burst 320 st) in
  ((energy decision >? d_of_int ENERGY_THRESHOLD)%dbl = true /\
   (goertzel_energy decision >? d_of_int 1000)%dbl = false /\
   has_tone decision = true /\
   has_tone decision <>
     (energy decision >? d_of_int ENERGY_THRESHOLD)%dbl &&
     (goertzel_energy decision >? d_of_int 1000)%dbl) /\
  ((goertzel_energy decision' >? d_of_int 1000)%dbl = false /\
   has_tone decision' = true) /\
  (exists state',
      user_data (snd (ringback_media_callback started_session
                        (frame_of (nyquist_wave 320 1000)) 40000)) = Some state' /\
      in_tone state' = 1 /\ tone_start_ms state' = 40).
Proof.
  split; [| split].
  - vm_compute. repeat split. discriminate.
  - vm_compute. repeat split.
  - eexists. split; [vm_compute; reflexivity | split; reflexivity].
Qed.

Lemma tone_present_is_energy_alone_witness :
  exists state',
    user_data (snd (ringback_media_callback started_session loud_frame 10000))
      = Some state' /\
    (in_tone state' <> 0 <->
     (calc_frame_energy (square_wave 80 8000) 80
        >? d_of_int ENERGY_THRESHOLD)%dbl = true).
Proof.
  eexists. split; [vm_compute; reflexivity |].
  apply (proj2 (proj2 tone_present_is_energy_alone)
           started_session started_state loud_frame (square_wave 80 8000) 10000).
  - reflexivity.
  - discriminate.
  - reflexivity.
  - vm_compute. discriminate.
  - reflexivity.
  - vm_compute. reflexivity.
Defined.

(** C3 at a stream of three congestion cycles (700 ms on, 700 ms off): the
    tracker has measured a tone of 700 ms after a silence of 700 ms, a pair
    the congestion predicate accepts, and there is no verdict and the
    session runs on; nor does the cascade give one when it is handed the
    measured pair, twice in a row. *)
Lemma congestion_cadence_gives_no_verdict :
  match_congestion_pattern 700 700 = true /\
  (exists state,
      user_data (deliver started_session congestion_cadence) = Some state /\
      last_tone_duration_ms state = 700 /\
      last_silence_duration_ms state = 700 /\
      tone_type state = 0 /\ running state = 1) /\
  session_channel (deliver started_session congestion_cadence) =
    [switch_channel_set_variable "ringback_active" "true"] /\
  (exists st1 st2,
      classify_segment 700 700 started_state [] = (SWITCH_TRUE, st1, []) /\
      classify_segment 700 700 st1 [] = (SWITCH_TRUE, st2, []) /\
      tone_type st2 = 0 /\ running st2 = 1).
Proof.
  split; [reflexivity |].
  split; [eexists; split; [vm_compute; reflexivity | repeat split] |].
  split; [vm_compute; reflexivity |].
  eexists _, _. split; [reflexivity |]. split; [reflexivity |]. split; reflexivity.
Qed.

Lemma congestion_pair_resets_counters_witness :
  match_congestion_pattern 700 700 = true /\
  classify_segment 700 700 started_state [] =
    (SWITCH_TRUE,
     set_consecutive_ringback 0 (set_consecutive_busy 0 started_state), []).
Proof.
  pose proof (congestion_pair_resets_counters 700 700 started_state []) as Hw.
  destruct Hw as (Hc & _ & _ & Hcascade & _).
  - vm_compute. split; discriminate.
  - vm_compute. split; discriminate.
  - split; [exact Hc | exact Hcascade].
Defined.

(** C6 at a frame without data delivered 61 s after the start of a session
    whose maximum is 60 s: the callback returns [SWITCH_TRUE] and changes
    nothing, so the session still runs and no timeout is reported; the same
    for a frame with a null data pointer. *)
Lemma frame_without_data_skips_timeout :
  running started_state = 1 /\ max_detect_time_ms started_state = 60000 /\
  tone_type started_state = 0 /\
  ringback_media_callback started_session empty_frame 61000000
    = (SWITCH_TRUE, started_session) /\
  ringback_media_callback started_session null_frame 61000000
    = (SWITCH_TRUE, started_session).
Proof. repeat split. Qed.

Lemma timeout_reported_once_witness :
  ringback_media_callback started_session silent_frame 61000000 =
  (SWITCH_FALSE,
   {| user_data := Some (set_running 0 started_state);
      goertzel_coefficient := 0%float;
      session_channel :=
        [ switch_channel_set_variable "ringback_active" "true";
          switch_channel_set_variable "ringback_finish_cause" "timeout";
          switch_channel_set_variable "ringback_tone" "unknown";
          switch_channel_set_variable "ringback_result" "unknown" ] |}).
Proof.
  apply (timeout_reported_once started_session started_state silent_frame
           (silence 80) 61000000).
  - reflexivity.
  - discriminate.
  - reflexivity.
  - vm_compute. discriminate.
  - reflexivity.
  - reflexivity.
  - discriminate.
  - discriminate.
Defined.

Lemma stopped_session_ignores_frames_witness :
  ringback_media_callback timed_out_session loud_frame 62000000
    = (SWITCH_TRUE, timed_out_session) /\
  deliver timed_out_session busy_cadence = timed_out_session.
Proof.
  destruct (stopped_session_ignores_frames timed_out_session
              (set_running 0 started_state) eq_refl eq_refl) as [Hcall Hall].
  split; [apply Hcall | apply Hall].
Defined.

(** ** The Goertzel coefficient over the real numbers *)

Lemma init_goertzel_real_from_zero :
  init_goertzel (H:=Double_R) 0%R =
  (2 * cos (2 * PI * (205 * 450 / 8000) / 205))%R.
Proof.
  unfold init_goertzel. cbn.
  destruct (Req_dec_T 0 0) as [_ | Hne]; [reflexivity | now contradiction Hne].
Qed.

(** C8 on the code: the bin of the specification is 12, and the coefficient
    the code computes is not the one of bin 12 (it is larger). *)
Lemma goertzel_coefficient_differs_from_rounded_bin :
  spec_bin = 12 /\
  init_goertzel (H:=Double_R) 0%R <> spec_goertzel_coefficient /\
  (spec_goertzel_coefficient < init_goertzel (H:=Double_R) 0%R)%R.
Proof.
  assert (Hlt : (spec_goertzel_coefficient < init_goertzel (H:=Double_R) 0%R)%R).
  { rewrite init_goertzel_real_from_zero. unfold spec_goertzel_coefficient.
    change spec_bin with 12. change GOERTZEL_N with 205.
    pose proof PI_RGT_0 as Hpi.
    apply Rmult_lt_compat_l; [lra |].
    apply cos_decreasing_1; lra. }
  split; [reflexivity |]. split; [| exact Hlt].
  intros Heq. rewrite Heq in Hlt. now apply Rlt_irrefl in Hlt.
Qed.

(** C8, as the code has it: the coefficient is [2 cos(2 pi k / N)] with
    [k = N * f_target / f_sample] taken as it is, 11.53125, which is no
    integer; so the coefficient is [2 cos(2 pi f_target / f_sample)]. It is
    computed when the cached value is zero and kept otherwise. *)
Theorem goertzel_coefficient_unrounded_bin :
  let k := (IZR GOERTZEL_N * IZR TARGET_FREQ / IZR SAMPLE_RATE)%R in
  k = (369 / 32)%R /\
  (forall n : Z, IZR n <> k) /\
  init_goertzel (H:=Double_R) 0%R = (2 * cos (2 * PI * k / IZR GOERTZEL_N))%R /\
  init_goertzel (H:=Double_R) 0%R = (2 * cos (2 * PI * 450 / 8000))%R /\
  (forall g : R, g <> 0%R -> init_goertzel (H:=Double_R) g = g).
Proof.
  intros k.
  assert (Hk : k = (369 / 32)%R).
  { unfold k, GOERTZEL_N, TARGET_FREQ, SAMPLE_RATE. lra. }
  split; [exact Hk |]. split; [| split; [| split]].
  - intros n Hn. rewrite Hk in Hn.
    assert (Hz : IZR (n * 32) = IZR 369).
    { rewrite mult_IZR. lra. }
    apply eq_IZR in Hz. lia.
  - rewrite init_goertzel_real_from_zero. unfold k. reflexivity.
  - rewrite init_goertzel_real_from_zero. f_equal. f_equal. field.
  - intros g Hg. unfold init_goertzel. cbn.
    destruct (Req_dec_T g 0) as [He | _]; [contradiction | reflexivity].
Qed.

(** On binary64 the coefficient of a first call. *)
Example goertzel_coefficient_binary64 :
  init_goertzel 0%float = 0x1.e05a9d625af0fp+0%float.
Proof. vm_compute. reflexivity. Qed.

(** * Further properties of the code *)

(** ** The Goertzel window *)

Section Window.

Context {D : Type} `{Double D}.

Implicit Types (state st : ringback_state_t (D:=D)) (m : machine (D:=D)).
Implicit Types (ch : channel) (frame : switch_frame_t).

Lemma goertzel_process_sample_fields st sample :
  sample_count (goertzel_process_sample st sample) = sint32 (sample_count st + 1) /\
  goertzel_coef (goertzel_process_sample st sample) = goertzel_coef st /\
  tracker_fields (goertzel_process_sample st sample) = tracker_fields st /\
  configuration (goertzel_process_sample st sample) = configuration st.
Proof. repeat split. Qed.

(** The filter loop changes the fields of the filter only, and never the
    coefficient. *)
Lemma goertzel_window_frame samples st :
  tracker_fields (fst (goertzel_window samples st)) = tracker_fields st /\
  configuration (fst (goertzel_window samples st)) = configuration st /\
  goertzel_coef (fst (goertzel_window samples st)) = goertzel_coef st.
Proof.
  revert st. induction samples as [| sample rest IH]; intros st.
  - repeat split.
  - cbn [goertzel_window].
    destruct (GOERTZEL_N <=? sample_count (goertzel_process_sample st sample)).
    + repeat split.
    + destruct (IH (goertzel_process_sample st sample)) as (Ht & Hc & Hk).
      rewrite Ht, Hc, Hk. repeat split.
Qed.

Lemma detect_tone_state samples samples_per_frame st :
  fst (detect_tone samples samples_per_frame st) = fst (goertzel_window samples st).
Proof.
  unfold detect_tone.
  destruct (goertzel_window samples st) as [st' goertzel_energy].
  destruct (Z.quot GOERTZEL_N 2 <=? sample_count st'); reflexivity.
Qed.

(** The sample counter stays below the window length. *)
Lemma goertzel_window_count samples st :
  0 <= sample_count st < GOERTZEL_N ->
  0 <= sample_count (fst (goertzel_window samples st)) < GOERTZEL_N.
Proof.
  revert st. induction samples as [| sample rest IH]; intros st Hc.
  - exact Hc.
  - cbn [goertzel_window].
    assert (Hs : sample_count (goertzel_process_sample st sample)
                 = sample_count st + 1).
    { cbn. apply sint32_small. unfold GOERTZEL_N in Hc. lia. }
    destruct (GOERTZEL_N <=? sample_count (goertzel_process_sample st sample)) eqn:E.
    + cbn. unfold GOERTZEL_N. lia.
    + apply IH. apply Z.leb_gt in E. lia.
Qed.

(** Frames that do not fill the window: the filter runs on across the frame
    boundary, the counter grows by the number of samples and no energy is
    read. *)
Lemma goertzel_window_partial a st :
  0 <= sample_count st ->
  sample_count st + Z.of_nat (List.length a) < GOERTZEL_N ->
  sample_count (fst (goertzel_window a st))
    = sample_count st + Z.of_nat (List.length a) /\
  snd (goertzel_window a st) = d_of_int 0 /\
  forall b, goertzel_window (a ++ b) st = goertzel_window b (fst (goertzel_window a st)).
Proof.
  revert st. induction a as [| sample rest IH]; intros st H0 Hlt.
  - cbn. repeat split. lia.
  - cbn [goertzel_window List.length app] in *.
    assert (Hs : sample_count (goertzel_process_sample st sample)
                 = sample_count st + 1).
    { cbn. apply sint32_small. unfold GOERTZEL_N in Hlt. lia. }
    destruct (GOERTZEL_N <=? sample_count (goertzel_process_sample st sample)) eqn:E.
    { apply Z.leb_le in E. lia. }
    destruct (IH (goertzel_process_sample st sample)) as (Hc & He & Happ); try lia.
    split; [lia |]. split; [exact He | exact Happ].
Qed.

(** X1: a frame that fills the window ends the loop there. The energy read
    is that of the filter after the samples up to the one that fills the
    window, all of them fed in order; the state left is that filter with
    both values and the counter reset to zero; and the samples of the frame
    after the one that filled the window never enter the filter. *)
Theorem goertzel_window_drops_rest_of_frame a b st :
  0 <= sample_count st ->
  sample_count st + Z.of_nat (List.length a) = GOERTZEL_N ->
  a <> [] ->
  let full := fold_left goertzel_process_sample a st in
  goertzel_window (a ++ b) st = goertzel_window a st /\
  snd (goertzel_window a st) = goertzel_get_energy full /\
  fst (goertzel_window a st) =
    set_sample_count 0
      (set_goertzel_s1 (d_of_int 0) (set_goertzel_s2 (d_of_int 0) full)) /\
  sample_count (fst (goertzel_window a st)) = 0 /\
  goertzel_s1 (fst (goertzel_window a st)) = d_of_int 0 /\
  goertzel_s2 (fst (goertzel_window a st)) = d_of_int 0.
Proof.
  intros H0 Hfull Hne full.
  assert (Hwin : forall rest,
             goertzel_window (a ++ rest) st =
             (set_sample_count 0
                (set_goertzel_s1 (d_of_int 0) (set_goertzel_s2 (d_of_int 0) full)),
              goertzel_get_energy full)).
  { subst full. clear b. revert st H0 Hfull.
    induction a as [| sample rest IH]; intros st H0 Hfull tail.
    - contradiction.
    - cbn [goertzel_window List.length app fold_left] in *.
      assert (Hs : sample_count (goertzel_process_sample st sample)
                   = sample_count st + 1).
      { cbn. apply sint32_small. unfold GOERTZEL_N in Hfull. lia. }
      destruct (GOERTZEL_N <=? sample_count (goertzel_process_sample st sample))
        eqn:E.
      + apply Z.leb_le in E.
        destruct rest as [| sample' rest'].
        * reflexivity.
        * cbn [List.length] in Hfull. lia.
      + apply Z.leb_gt in E.
        destruct rest as [| sample' rest'].
        * cbn [List.length] in Hfull. lia.
        * apply IH; [discriminate | lia | rewrite Hs; cbn [List.length] in *; lia]. }
  pose proof (Hwin b) as Hb. pose proof (Hwin []) as Ha.
  rewrite app_nil_r in Ha. rewrite Hb, Ha.
  repeat split.
Qed.

(** X2: frames too short to fill the window are joined: delivering [a] and
    then [b] leaves the filter where the frame [a ++ b] would, the counter
    has grown by the length of [a], and the energy read for [a] is zero. *)
Theorem goertzel_window_joins_short_frames a b st :
  0 <= sample_count st ->
  sample_count st + Z.of_nat (List.length a) < GOERTZEL_N ->
  goertzel_window (a ++ b) st = goertzel_window b (fst (goertzel_window a st)) /\
  sample_count (fst (goertzel_window a st))
    = sample_count st + Z.of_nat (List.length a) /\
  snd (goertzel_window a st) = d_of_int 0.
Proof.
  intros H0 Hlt.
  destruct (goertzel_window_partial a st H0 Hlt) as (Hc & He & Happ).
  split; [apply Happ | split; assumption].
Qed.

End Window.

(** ** The on/off tracker *)

Section Tracker.

Context {D : Type} `{Double D}.

Implicit Types (state st : ringback_state_t (D:=D)) (m : machine (D:=D)).
Implicit Types (ch : channel) (frame : switch_frame_t).

Lemma track_segment_tone_goes_on now_ms st ch :
  in_tone st <> 0 -> track_segment true now_ms st ch = (SWITCH_TRUE, st, ch).
Proof.
  intros Hin. unfold track_segment.
  apply Z.eqb_neq in Hin. rewrite Hin. reflexivity.
Qed.

Lemma track_segment_silence_goes_on now_ms st ch :
  in_tone st = 0 -> silence_start_ms st <> 0 ->
  track_segment false now_ms st ch = (SWITCH_TRUE, st, ch).
Proof.
  intros Hin Hs. unfold track_segment.
  apply Z.eqb_neq in Hs. rewrite Hin, Hs. reflexivity.
Qed.

Lemma track_segment_rising_edge now_ms st ch :
  in_tone st = 0 ->
  track_segment true now_ms st ch =
  (SWITCH_TRUE,
   set_tone_start_ms now_ms
     ((if 0 <? silence_start_ms st
       then set_last_silence_duration_ms (uint32 (now_ms - silence_start_ms st))
       else fun s => s) (set_in_tone 1 st)),
   ch).
Proof.
  intros Hin. unfold track_segment. rewrite Hin. cbn.
  destruct (0 <? silence_start_ms st); reflexivity.
Qed.

Lemma track_segment_falling_edge now_ms st ch :
  in_tone st <> 0 ->
  track_segment false now_ms st ch =
  (SWITCH_TRUE,
   set_consecutive_ringback 0
     (set_consecutive_busy 0
       (set_silence_start_ms now_ms
         (set_last_tone_duration_ms (uint32 (now_ms - tone_start_ms st))
           (set_in_tone 0 st)))),
   ch).
Proof.
  intros Hin. unfold track_segment.
  apply Z.eqb_neq in Hin. rewrite Hin. cbn.
  apply classify_segment_no_match.
  - apply match_busy_pattern_off_zero.
  - apply match_ringback_pattern_off_zero.
Qed.

Lemma track_segment_first_silence now_ms st ch :
  in_tone st = 0 -> silence_start_ms st = 0 ->
  track_segment false now_ms st ch =
  (SWITCH_TRUE, set_silence_start_ms now_ms st, ch).
Proof.
  intros Hin Hs. unfold track_segment. rewrite Hin, Hs. reflexivity.
Qed.

(** The tracker leaves the filter and the configuration alone. *)
Lemma track_segment_frame (tone : bool) now_ms st ch :
  filter_fields (snd (fst (track_segment tone now_ms st ch))) = filter_fields st /\
  configuration (snd (fst (track_segment tone now_ms st ch))) = configuration st.
Proof.
  destruct tone, (Z.eq_dec (in_tone st) 0) as [Hin | Hin].
  - rewrite track_segment_rising_edge by assumption. cbn.
    destruct (0 <? silence_start_ms st); repeat split.
  - rewrite track_segment_tone_goes_on by assumption. repeat split.
  - destruct (Z.eq_dec (silence_start_ms st) 0) as [Hs | Hs].
    + rewrite track_segment_first_silence by assumption. repeat split.
    + rewrite track_segment_silence_goes_on by assumption. repeat split.
  - rewrite track_segment_falling_edge by assumption. repeat split.
Qed.

Lemma track_stream_app (a b : list (bool * Z)) st ch :
  track_stream (a ++ b) st ch = track_stream b (track_stream a st ch) ch.
Proof.
  revert st. induction a as [| [tone now_ms] rest IH]; intros st.
  - reflexivity.
  - cbn [track_stream app]. apply IH.
Qed.

Lemma track_stream_tone_goes_on (times : list Z) st ch :
  in_tone st <> 0 -> track_stream (map (pair true) times) st ch = st.
Proof.
  intros Hin. induction times as [| t rest IH].
  - reflexivity.
  - cbn [track_stream map]. rewrite track_segment_tone_goes_on by assumption.
    exact IH.
Qed.

Lemma track_stream_silence_goes_on (times : list Z) st ch :
  in_tone st = 0 -> silence_start_ms st <> 0 ->
  track_stream (map (pair false) times) st ch = st.
Proof.
  intros Hin Hs. induction times as [| t rest IH].
  - reflexivity.
  - cbn [track_stream map]. rewrite track_segment_silence_goes_on by assumption.
    exact IH.
Qed.

(** X3: the tracker measures a cadence by its edges. From a fresh tracker
    (in silence, no silence start recorded), a silence first seen at [t0],
    a tone first seen at [t1] and a silence first seen at [t2], with any
    number of frames in between, leave the silence duration [t1 - t0] and
    the tone duration [t2 - t1], the new silence start [t2], both counters
    at zero and the tone type as it was. *)
Theorem tracker_measures_cadence st ch t0 t1 t2 (silent loud : list Z) :
  in_tone st = 0 -> silence_start_ms st = 0 ->
  0 < t0 <= t1 -> t1 <= t2 < 2 ^ 32 ->
  let st' :=
    track_stream
      ((false, t0) :: map (pair false) silent ++
       (true, t1) :: map (pair true) loud ++ [(false, t2)]) st ch in
  last_silence_duration_ms st' = t1 - t0 /\
  last_tone_duration_ms st' = t2 - t1 /\
  silence_start_ms st' = t2 /\ tone_start_ms st' = t1 /\ in_tone st' = 0 /\
  consecutive_busy st' = 0 /\ consecutive_ringback st' = 0 /\
  tone_type st' = tone_type st /\ running st' = running st.
Proof.
  intros Hin Hs H01 H12 st'. subst st'.
  cbn [track_stream].
  rewrite track_segment_first_silence by assumption. cbn [fst snd].
  rewrite track_stream_app.
  rewrite track_stream_silence_goes_on by (cbn; (assumption || lia)).
  cbn [track_stream].
  rewrite track_segment_rising_edge by (cbn; assumption). cbn [fst snd].
  rewrite track_stream_app.
  rewrite track_stream_tone_goes_on
    by (cbn; destruct (0 <? t0); cbn; discriminate).
  cbn [track_stream].
  rewrite track_segment_falling_edge
    by (cbn; destruct (0 <? t0); cbn; discriminate).
  cbn.
  assert (Hpos : (0 <? t0) = true) by (apply Z.ltb_lt; lia).
  rewrite Hpos. cbn. unfold uint32.
  rewrite !Z.mod_small by lia. repeat split.
Qed.

(** X4: the value 0 of [silence_start_ms] stands for no silence seen. A tone
    that starts then is timed from its first frame, but the silence duration
    is left as it was; and a silence whose first frame has elapsed time 0 is
    not recorded as started. *)
Theorem silence_start_zero_is_unset st ch now_ms :
  in_tone st = 0 -> silence_start_ms st = 0 ->
  (let st' := snd (fst (track_segment true now_ms st ch)) in
   last_silence_duration_ms st' = last_silence_duration_ms st /\
   tone_start_ms st' = now_ms /\ in_tone st' = 1) /\
  track_segment false 0 st ch = (SWITCH_TRUE, st, ch).
Proof.
  intros Hin Hs. split.
  - rewrite track_segment_rising_edge by assumption. rewrite Hs. repeat split.
  - rewrite track_segment_first_silence by assumption.
    destruct st; cbn in *. subst. reflexivity.
Qed.

End Tracker.

(** ** Deliveries *)

Section Deliveries.

Context {D : Type} `{Double D}.

Implicit Types (state st : ringback_state_t (D:=D)) (m : machine (D:=D)).
Implicit Types (ch : channel) (frame : switch_frame_t).

Lemma carries_data_true frame :
  carries_data frame = true ->
  exists buffer, data frame = Some buffer /\ 2 <= datalen frame.
Proof.
  unfold carries_data. destruct (data frame) as [buffer |]; [| discriminate].
  intros Hlen. apply Z.leb_le in Hlen. now exists buffer.
Qed.

Lemma callback_skips_frame m frame micro_now :
  carries_data frame = false ->
  ringback_media_callback m frame micro_now = (SWITCH_TRUE, m).
Proof.
  intros Hdata. unfold ringback_media_callback, carries_data in *.
  destruct (user_data m) as [state |]; [| reflexivity].
  destruct (running state =? 0); [reflexivity |].
  destruct (data frame) as [buffer |]; [| reflexivity].
  apply Z.leb_gt in Hdata.
  destruct (datalen frame =? 0); [reflexivity |].
  destruct (Z.quot (datalen frame) 2 <=? 0) eqn:E; [reflexivity |].
  apply Z.leb_gt in E.
  assert (Z.quot (datalen frame) 2 <= 0); [| lia].
  destruct (Z_lt_le_dec (datalen frame) 0) as [Hneg | Hpos].
  - apply Z.quot_le_upper_bound; lia.
  - rewrite Z.quot_small; lia.
Qed.

(** A frame with samples delivered in time to a running session. *)
Lemma callback_processes m state frame micro_now :
  user_data m = Some state -> running state <> 0 ->
  carries_data frame = true -> past_maximum state micro_now = false ->
  exists state',
    ringback_media_callback m frame micro_now =
    (SWITCH_TRUE,
     {| user_data := Some state';
        goertzel_coefficient := init_goertzel (goertzel_coefficient m);
        session_channel := session_channel m |}) /\
    running state' = running state /\
    tone_type state' = tone_type state /\
    configuration state' = configuration state /\
    goertzel_coef state' = init_goertzel (goertzel_coefficient m) /\
    (0 <= sample_count state < GOERTZEL_N ->
     0 <= sample_count state' < GOERTZEL_N).
Proof.
  intros Hud Hrun Hdata Hmax.
  apply carries_data_true in Hdata as (buffer & Hbuf & Hlen).
  unfold ringback_media_callback, past_maximum in *.
  rewrite Hud, Hbuf.
  destruct (running state =? 0) eqn:E; [apply Z.eqb_eq in E; contradiction |].
  destruct (datalen frame =? 0) eqn:E0; [apply Z.eqb_eq in E0; lia |].
  assert (Hq : 1 <= Z.quot (datalen frame) 2).
  { apply Z.quot_le_lower_bound; lia. }
  destruct (Z.quot (datalen frame) 2 <=? 0) eqn:E1; [apply Z.leb_le in E1; lia |].
  rewrite Hmax.
  set (samples := firstn (Z.to_nat (Z.quot (datalen frame) 2)) buffer).
  set (st0 := set_goertzel_coef (init_goertzel (goertzel_coefficient m)) state).
  pose proof (detect_tone_state samples (Z.quot (datalen frame) 2) st0) as Hst.
  destruct (detect_tone samples _ st0) as [st1 decision]. cbn [fst] in Hst.
  destruct (goertzel_window_frame samples st0) as (Htr & Hcf & Hco).
  pose proof (goertzel_window_count samples st0) as Hcount.
  rewrite <- Hst in Htr, Hcf, Hco, Hcount.
  set (now_ms := uint32 (Z.quot micro_now 1000 - start_time_ms state)).
  destruct (track_segment_off_zero (has_tone decision) now_ms st1 (session_channel m))
    as (st2 & Htrack & Htone & Hrunning & _).
  destruct (track_segment_frame (has_tone decision) now_ms st1 (session_channel m))
    as (Hfilter & Hconfig).
  rewrite Htrack in Hfilter, Hconfig |- *. cbn [fst snd] in Hfilter, Hconfig.
  exists st2. split; [reflexivity |].
  unfold tracker_fields, filter_fields in *.
  injection Htr as Hr _ _ _ _ _ Ht _ _.
  injection Hfilter as Hsc _ _ Hcoef.
  repeat split.
  - now rewrite Hrunning, Hr.
  - now rewrite Htone, Ht.
  - now rewrite Hconfig, Hcf.
  - now rewrite Hcoef, Hco.
  - rewrite Hsc. apply Hcount. assumption.
  - rewrite Hsc. apply Hcount. assumption.
Qed.

(** X5: a frame with a null data pointer or with fewer than two bytes is
    skipped, whatever the session and the clock: the callback returns
    [SWITCH_TRUE] and the state, the cached coefficient and the channel are
    what they were; a stream of such frames changes nothing, however late
    the clock. *)
Theorem frame_without_samples_is_skipped m :
  (forall frame micro_now,
      carries_data frame = false ->
      ringback_media_callback m frame micro_now = (SWITCH_TRUE, m)) /\
  (forall frames,
      forallb (fun ft => negb (carries_data (fst ft))) frames = true ->
      deliver m frames = m).
Proof.
  split.
  - intros frame micro_now. apply callback_skips_frame.
  - intros frames. induction frames as [| [frame micro_now] rest IH].
    + reflexivity.
    + cbn [forallb deliver fst]. intros Hall.
      apply andb_true_iff in Hall as [Hframe Hrest].
      apply negb_true_iff in Hframe.
      rewrite callback_skips_frame by assumption. now apply IH.
Qed.

Lemma past_maximum_true state micro_now :
  past_maximum state micro_now = true ->
  0 < max_detect_time_ms state /\
  max_detect_time_ms state < uint32 (Z.quot micro_now 1000 - start_time_ms state).
Proof.
  unfold past_maximum. rewrite andb_true_iff, !Z.ltb_lt. tauto.
Qed.

Lemma callback_times_out m state frame micro_now :
  user_data m = Some state -> running state <> 0 ->
  carries_data frame = true -> past_maximum state micro_now = true ->
  ringback_media_callback m frame micro_now =
  (SWITCH_FALSE,
   {| user_data := Some (set_running 0 state);
      goertzel_coefficient := goertzel_coefficient m;
      session_channel :=
        set_ringback_result (set_running 0 state) (session_channel m) |}).
Proof.
  intros Hud Hrun Hdata Hmax.
  apply carries_data_true in Hdata as (buffer & Hbuf & Hlen).
  apply past_maximum_true in Hmax as (Hpos & Hpast).
  now apply callback_timeout with buffer.
Qed.

(** X6: the callback returns [SWITCH_FALSE], which takes the media bug off
    the session, in one case only: the session runs, the frame carries
    samples and the elapsed time is past a positive maximum. A tone, a
    cadence or a silence never makes it return [SWITCH_FALSE]. *)
Theorem callback_stops_exactly_on_timeout m frame micro_now :
  fst (ringback_media_callback m frame micro_now) = SWITCH_FALSE <->
  exists state,
    user_data m = Some state /\ running state <> 0 /\
    carries_data frame = true /\ past_maximum state micro_now = true.
Proof.
  split.
  - intros Hfalse.
    destruct (user_data m) as [state |] eqn:Hud.
    2:{ unfold ringback_media_callback in Hfalse. rewrite Hud in Hfalse.
        discriminate. }
    exists state. split; [reflexivity |].
    destruct (Z.eq_dec (running state) 0) as [Hrun | Hrun].
    { rewrite (callback_not_running m state) in Hfalse by assumption.
      discriminate. }
    destruct (carries_data frame) eqn:Hdata.
    2:{ rewrite callback_skips_frame in Hfalse by assumption. discriminate. }
    destruct (past_maximum state micro_now) eqn:Hmax; [auto |].
    destruct (callback_processes m state frame micro_now Hud Hrun Hdata Hmax)
      as (state' & Hcall & _).
    rewrite Hcall in Hfalse. discriminate.
  - intros (state & Hud & Hrun & Hdata & Hmax).
    now rewrite (callback_times_out m state).
Qed.

Lemma set_ringback_result_shape state ch :
  exists cause tone,
    set_ringback_result state ch =
    ch ++ [ switch_channel_set_variable "ringback_finish_cause" cause;
            switch_channel_set_variable "ringback_tone" tone;
            switch_channel_set_variable "ringback_result" tone ] /\
    ((tone_type state = RINGBACK_TONE_BUSY /\
      cause = "busy"%string /\ tone = "busy"%string) \/
     (tone_type state = RINGBACK_TONE_RINGBACK /\
      cause = "ringback"%string /\ tone = "ringback"%string) \/
     (tone_type state <> RINGBACK_TONE_BUSY /\
      tone_type state <> RINGBACK_TONE_RINGBACK /\
      cause = "timeout"%string /\ tone = "unknown"%string)).
Proof.
  unfold set_ringback_result.
  destruct (tone_type state =? RINGBACK_TONE_BUSY) eqn:Eb.
  - apply Z.eqb_eq in Eb. eexists _, _. split; [reflexivity | auto].
  - apply Z.eqb_neq in Eb.
    destruct (tone_type state =? RINGBACK_TONE_RINGBACK) eqn:Er.
    + apply Z.eqb_eq in Er. eexists _, _. split; [reflexivity | auto].
    + apply Z.eqb_neq in Er. eexists _, _. split; [reflexivity |].
      right. right. auto.
Qed.

(** One delivery: the session keeps its configuration and its tone type,
    the sample counter stays in its range, and the running flag is either
    kept, with the channel untouched, or cleared by a timeout that writes
    the result. *)
Lemma callback_step m state frame micro_now :
  user_data m = Some state ->
  exists state',
    user_data (snd (ringback_media_callback m frame micro_now)) = Some state' /\
    configuration state' = configuration state /\
    tone_type state' = tone_type state /\
    (0 <= sample_count state < GOERTZEL_N ->
     0 <= sample_count state' < GOERTZEL_N) /\
    ((running state' = running state /\
      session_channel (snd (ringback_media_callback m frame micro_now))
        = session_channel m /\
      (running state = 0 \/
       carries_data frame && past_maximum state micro_now = false)) \/
     (running state <> 0 /\ running state' = 0 /\
      carries_data frame && past_maximum state micro_now = true /\
      session_channel (snd (ringback_media_callback m frame micro_now))
        = set_ringback_result state' (session_channel m))).
Proof.
  intros Hud.
  destruct (Z.eq_dec (running state) 0) as [Hrun | Hrun].
  { rewrite (callback_not_running m state) by assumption.
    exists state. cbn [snd].
    split; [exact Hud |]. split; [reflexivity |]. split; [reflexivity |].
    split; [tauto |]. left. auto. }
  destruct (carries_data frame) eqn:Hdata.
  2:{ rewrite callback_skips_frame by assumption.
      exists state. cbn [snd].
      split; [exact Hud |]. split; [reflexivity |]. split; [reflexivity |].
      split; [tauto |]. left. auto. }
  destruct (past_maximum state micro_now) eqn:Hmax.
  - rewrite (callback_times_out m state) by assumption.
    exists (set_running 0 state). cbn [snd user_data session_channel].
    split; [reflexivity |]. split; [reflexivity |]. split; [reflexivity |].
    split; [tauto |]. right. auto.
  - destruct (callback_processes m state frame micro_now Hud Hrun Hdata Hmax)
      as (state' & Hcall & Hr & Ht & Hc & _ & Hcount).
    rewrite Hcall. exists state'. cbn [snd user_data session_channel].
    split; [reflexivity |]. split; [exact Hc |]. split; [exact Ht |].
    split; [exact Hcount |]. left. auto.
Qed.

Lemma deliver_no_state m frames : user_data m = None -> deliver m frames = m.
Proof.
  intros Hud. induction frames as [| [frame micro_now] rest IH].
  - reflexivity.
  - cbn [deliver]. unfold ringback_media_callback. rewrite Hud. exact IH.
Qed.

(** X7: whatever stream is delivered, the callback writes to the channel at
    most once, and then exactly the three result variables, the tone and
    the result carrying the same value; it never asks for a hang-up. *)
Theorem deliveries_write_result_at_most_once m frames :
  exists written,
    session_channel (deliver m frames) = session_channel m ++ written /\
    (written = [] \/
     exists cause tone,
       written = [ switch_channel_set_variable "ringback_finish_cause" cause;
                   switch_channel_set_variable "ringback_tone" tone;
                   switch_channel_set_variable "ringback_result" tone ]) /\
    (forall cause, ~ In (switch_channel_hangup cause) written).
Proof.
  revert m. induction frames as [| [frame micro_now] rest IH]; intros m.
  - exists []. cbn. rewrite app_nil_r. repeat split; auto.
  - cbn [deliver].
    destruct (user_data m) as [state |] eqn:Hud.
    2:{ unfold ringback_media_callback. rewrite Hud. cbn [snd]. apply IH. }
    destruct (callback_step m state frame micro_now Hud)
      as (state' & Hud' & _ & _ & _ & [(_ & Hch & _) | (_ & Hstop & _ & Hch)]).
    + destruct (IH (snd (ringback_media_callback m frame micro_now)))
        as (written & Hlog & Hshape).
      exists written. rewrite Hlog, Hch. split; [reflexivity | exact Hshape].
    + rewrite (deliver_not_running _ state') by assumption.
      destruct (set_ringback_result_shape state' (session_channel m))
        as (cause & tone & Hres & _).
      eexists. rewrite Hch, Hres. split; [reflexivity |].
      split; [right; now exists cause, tone |].
      intros c [Hin | [Hin | [Hin | []]]]; discriminate.
Qed.

Lemma past_maximum_configuration state state' micro_now :
  configuration state' = configuration state ->
  past_maximum state' micro_now = past_maximum state micro_now.
Proof.
  unfold configuration, past_maximum. intros Hc.
  injection Hc as Hs Hm _ _ _. now rewrite Hs, Hm.
Qed.

Lemma in_time_configuration state state' frames :
  configuration state' = configuration state ->
  in_time state' frames = in_time state frames.
Proof.
  intros Hc. unfold in_time. induction frames as [| ft rest IH].
  - reflexivity.
  - cbn [forallb]. rewrite IH.
    now rewrite (past_maximum_configuration state state').
Qed.

Lemma deliver_invariants m state frames :
  user_data m = Some state ->
  exists state',
    user_data (deliver m frames) = Some state' /\
    configuration state' = configuration state /\
    tone_type state' = tone_type state /\
    (0 <= sample_count state < GOERTZEL_N ->
     0 <= sample_count state' < GOERTZEL_N) /\
    (running state' = running state \/ running state' = 0) /\
    (in_time state frames = true ->
     running state' = running state /\
     session_channel (deliver m frames) = session_channel m).
Proof.
  revert m state. induction frames as [| [frame micro_now] rest IH];
    intros m state Hud.
  - exists state. cbn [deliver].
    split; [exact Hud |]. split; [reflexivity |]. split; [reflexivity |].
    split; [tauto |]. split; [left; reflexivity |].
    intros _. split; reflexivity.
  - cbn [deliver].
    destruct (callback_step m state frame micro_now Hud)
      as (state1 & Hud1 & Hc1 & Ht1 & Hn1 & Hrun1).
    destruct (IH _ state1 Hud1) as (state' & Hud' & Hc & Ht & Hn & Hrun & Htime).
    exists state'. split; [exact Hud' |].
    split; [now rewrite Hc |]. split; [now rewrite Ht |].
    split; [tauto |]. split.
    + destruct Hrun1 as [(Hr & _) | (_ & Hr & _)], Hrun as [Hr' | Hr']; lia.
    + cbn [in_time forallb fst snd]. intros Hall.
      apply andb_true_iff in Hall as [Hframe Hrest].
      apply negb_true_iff in Hframe.
      fold (in_time state rest) in Hrest.
      rewrite <- (in_time_configuration state state1) in Hrest by assumption.
      destruct (Htime Hrest) as (Hr & Hch).
      destruct Hrun1 as [(Hr1 & Hch1 & _) | (Hrunning & _ & Hstop & _)].
      * split; [lia | now rewrite Hch].
      * rewrite Hstop in Hframe. discriminate.
Qed.

(** X8: over any stream a session keeps what it was started with (start
    time, maximum, hang-up settings), records no tone type and keeps its
    sample counter below the window length; its running flag is either
    unchanged or cleared, and it is unchanged, with nothing written to the
    channel, when no frame of the stream carries samples past the maximum. *)
Theorem deliveries_keep_configuration m state frames :
  user_data m = Some state ->
  exists state',
    user_data (deliver m frames) = Some state' /\
    configuration state' = configuration state /\
    tone_type state' = tone_type state /\
    (0 <= sample_count state < GOERTZEL_N ->
     0 <= sample_count state' < GOERTZEL_N) /\
    (running state' = running state \/ running state' = 0) /\
    (in_time state frames = true ->
     running state' = running state /\
     session_channel (deliver m frames) = session_channel m).
Proof. apply deliver_invariants. Qed.

(** X9: what a session is started with. A missing, zero or negative
    [ringback_maxdetecttime] gives the default of 60000 ms and a value of
    [n] seconds, up to 2147483, gives [1000 n] ms, so the maximum is always
    positive; a missing [ringback_autohangup] leaves the hang-up on busy
    switched on; the tracker and the filter start from zero, the session
    runs and "ringback_active" is set. When the media bug cannot be created
    the status is passed on and nothing is changed. *)
Theorem start_ringback_settings micro_now var_maxdetecttime var_autohangup m0 :
  (exists state,
      start_ringback micro_now var_maxdetecttime var_autohangup
        SWITCH_STATUS_SUCCESS m0 =
      (SWITCH_STATUS_SUCCESS,
       {| user_data := Some state;
          goertzel_coefficient := goertzel_coefficient m0;
          session_channel :=
            session_channel m0 ++
            [switch_channel_set_variable "ringback_active" "true"] |}) /\
      tracker_fields state = (1, 0, 0, 0, 0, 0, 0, 0, 0) /\
      sample_count state = 0 /\
      start_time_ms state = uint32 (Z.quot micro_now 1000) /\
      (var_maxdetecttime = None -> max_detect_time_ms state = 60000) /\
      (forall n, var_maxdetecttime = Some n -> n <= 0 ->
                 max_detect_time_ms state = 60000) /\
      (forall n, var_maxdetecttime = Some n -> 0 < n <= 2147483 ->
                 max_detect_time_ms state = 1000 * n) /\
      (var_autohangup = None -> hangup_on_busy state = 1) /\
      (forall b, var_autohangup = Some b -> hangup_on_busy state = b)) /\
  start_ringback micro_now var_maxdetecttime var_autohangup
    SWITCH_STATUS_FALSE m0 = (SWITCH_STATUS_FALSE, m0).
Proof.
  split; [| reflexivity].
  eexists. split; [reflexivity |].
  split; [reflexivity |]. split; [reflexivity |]. split; [reflexivity |].
  split; [intros ->; reflexivity |].
  split.
  { intros n -> Hn. cbn [max_detect_time_ms].
    apply Z.ltb_ge in Hn. now rewrite Hn. }
  split.
  { intros n -> Hn. cbn [max_detect_time_ms].
    assert (Hpos : (0 <? n) = true) by (apply Z.ltb_lt; lia).
    rewrite Hpos. unfold uint32. change (2 ^ 32) with 4294967296.
    rewrite Z.mod_small; lia. }
  split; [intros ->; reflexivity | intros b ->; reflexivity].
Qed.

Lemma elapsed_since_start micro_start micro_now :
  0 <= micro_start <= micro_now ->
  Z.quot micro_now 1000 - Z.quot micro_start 1000 < 2 ^ 32 ->
  uint32 (Z.quot micro_now 1000 - uint32 (Z.quot micro_start 1000))
  = Z.quot micro_now 1000 - Z.quot micro_start 1000.
Proof.
  intros Horder Hrange. unfold uint32.
  rewrite Zminus_mod_idemp_r.
  apply Z.mod_small.
  assert (Z.quot micro_start 1000 <= Z.quot micro_now 1000).
  { apply Z.quot_le_mono; lia. }
  lia.
Qed.

(** X10: a started session is stopped by the clock and by nothing else. Let
    a session be started at clock reading [micro_start] and fed any stream
    that does not stop it; then a frame with samples at clock reading
    [micro_now] makes the callback return [SWITCH_FALSE] exactly when the
    milliseconds elapsed since the start (the 32-bit truncation of the
    start time cancels) exceed the maximum, and the channel then holds
    "ringback_active" and the result "timeout"/"unknown"/"unknown" and
    nothing more. *)
Theorem started_session_stops_on_time micro_start micro_now
    var_maxdetecttime var_autohangup m0 state frames frame :
  user_data (snd (start_ringback micro_start var_maxdetecttime var_autohangup
                    SWITCH_STATUS_SUCCESS m0)) = Some state ->
  0 < max_detect_time_ms state ->
  0 <= micro_start <= micro_now ->
  Z.quot micro_now 1000 - Z.quot micro_start 1000 < 2 ^ 32 ->
  in_time state frames = true ->
  carries_data frame = true ->
  let m := deliver (snd (start_ringback micro_start var_maxdetecttime
                           var_autohangup SWITCH_STATUS_SUCCESS m0)) frames in
  let elapsed := Z.quot micro_now 1000 - Z.quot micro_start 1000 in
  (fst (ringback_media_callback m frame micro_now) = SWITCH_FALSE <->
   max_detect_time_ms state < elapsed) /\
  (max_detect_time_ms state < elapsed ->
   session_channel (snd (ringback_media_callback m frame micro_now)) =
   session_channel m0 ++
   [ switch_channel_set_variable "ringback_active" "true";
     switch_channel_set_variable "ringback_finish_cause" "timeout";
     switch_channel_set_variable "ringback_tone" "unknown";
     switch_channel_set_variable "ringback_result" "unknown" ]).
Proof.
  intros Hud Hmax Horder Hrange Htime Hdata m elapsed.
  destruct (deliver_invariants _ state frames Hud)
    as (state' & Hud' & Hconf & Htone & _ & _ & Hkept).
  destruct (Hkept Htime) as (Hrun & Hch).
  fold m in Hud', Hch.
  assert (Hstart : start_time_ms state = uint32 (Z.quot micro_start 1000)
                   /\ running state = 1 /\ tone_type state = 0).
  { cbn in Hud. injection Hud as <-. repeat split. }
  destruct Hstart as (Hstart & Hrunning & Htype).
  assert (Hpast : past_maximum state' micro_now
                  = (max_detect_time_ms state <? elapsed)).
  { rewrite (past_maximum_configuration state state') by assumption.
    unfold past_maximum. rewrite Hstart, elapsed_since_start by assumption.
    apply Z.ltb_lt in Hmax. now rewrite Hmax. }
  assert (Hrun' : running state' <> 0) by lia.
  destruct (max_detect_time_ms state <? elapsed) eqn:E.
  - apply Z.ltb_lt in E.
    rewrite (callback_times_out m state') by assumption.
    cbn [fst snd session_channel].
    split; [tauto |]. intros _.
    unfold set_ringback_result. cbn [tone_type set_running].
    rewrite Htone, Htype, Hch. cbn. rewrite <- app_assoc. reflexivity.
  - apply Z.ltb_ge in E.
    destruct (callback_processes m state' frame micro_now Hud' Hrun' Hdata Hpast)
      as (state2 & Hcall & _).
    rewrite Hcall. cbn [fst]. split; [| lia].
    split; [discriminate | lia].
Qed.

End Deliveries.

(** ** The cascade and the result *)

Section Verdicts.

Context {D : Type} `{Double D}.

Implicit Types (state st : ringback_state_t (D:=D)) (m : machine (D:=D)).
Implicit Types (ch : channel) (frame : switch_frame_t).

(** X11: after the cascade at most one of the two consecutive-match
    counters is not zero, whatever they were before and whatever the pair. *)
Theorem cascade_keeps_one_counter on_ms off_ms st ch :
  consecutive_busy (snd (fst (classify_segment on_ms off_ms st ch))) = 0 \/
  consecutive_ringback (snd (fst (classify_segment on_ms off_ms st ch))) = 0.
Proof.
  destruct (match_busy_pattern on_ms off_ms) eqn:Hb.
  - right.
    destruct (Z_lt_le_dec (sint32 (consecutive_busy st + 1)) 2).
    + now rewrite classify_segment_busy_counts.
    + now rewrite classify_segment_busy_fires.
  - left. destruct (match_ringback_pattern on_ms off_ms) eqn:Hr.
    + rewrite classify_segment_ringback by assumption. cbn.
      destruct (1 <=? sint32 (consecutive_ringback st + 1)); reflexivity.
    + now rewrite classify_segment_no_match.
Qed.

(** X13: [set_ringback_result] appends three variables to the channel, in
    the order finish cause, tone, result; tone and result always carry the
    same value; the values are "busy" for the busy tone type, "ringback"
    for the ringback tone type, and otherwise the finish cause "timeout"
    with the tone "unknown". *)
Theorem set_ringback_result_values state ch :
  exists cause tone,
    set_ringback_result state ch =
    ch ++ [ switch_channel_set_variable "ringback_finish_cause" cause;
            switch_channel_set_variable "ringback_tone" tone;
            switch_channel_set_variable "ringback_result" tone ] /\
    ((tone_type state = RINGBACK_TONE_BUSY /\
      cause = "busy"%string /\ tone = "busy"%string) \/
     (tone_type state = RINGBACK_TONE_RINGBACK /\
      cause = "ringback"%string /\ tone = "ringback"%string) \/
     (tone_type state <> RINGBACK_TONE_BUSY /\
      tone_type state <> RINGBACK_TONE_RINGBACK /\
      cause = "timeout"%string /\ tone = "unknown"%string)).
Proof. apply set_ringback_result_shape. Qed.

(** X14: the API command always returns success and writes one line: the
    usage line for a null or empty argument, "no such channel" when the
    uuid is not found, and otherwise "+OK" or "-ERR" as the media bug could
    be created or not. It says "+OK" exactly when a session now runs the
    detection, and a session whose bug failed is left as it was. *)
Theorem api_uuid_start_ringback_reports args locate micro_now :
  let result := api_uuid_start_ringback (D:=D) args locate micro_now in
  fst (fst result) = SWITCH_STATUS_SUCCESS /\
  (args = None \/ args = Some EmptyString ->
   snd (fst result) = ("-ERR Usage: uuid_start_ringback <uuid>" ++ newline)%string /\
   snd result = None) /\
  (forall uuid, args = Some uuid -> uuid <> EmptyString ->
     match locate uuid with
     | None =>
         snd (fst result) = ("-ERR No such channel" ++ newline)%string /\
         snd result = None
     | Some target =>
         match media_bug_status target with
         | SWITCH_STATUS_SUCCESS =>
             snd (fst result) = ("+OK" ++ newline)%string /\
             exists state m,
               snd result = Some m /\ user_data m = Some state /\
               running state = 1
         | SWITCH_STATUS_FALSE =>
             snd (fst result) = ("-ERR" ++ newline)%string /\
             snd result = Some (session_machine target)
         end
     end) /\
  (snd (fst result) = ("+OK" ++ newline)%string <->
   exists uuid target,
     args = Some uuid /\ uuid <> EmptyString /\ locate uuid = Some target /\
     media_bug_status target = SWITCH_STATUS_SUCCESS).
Proof.
  intros result. subst result. unfold api_uuid_start_ringback.
  destruct args as [[| c uuid] |].
  - cbn. repeat split; try discriminate; try congruence.
    intros (uuid & target & Heq & Hne & _). congruence.
  - destruct (locate (String c uuid)) as [target |] eqn:Hloc.
    + destruct (media_bug_status target) eqn:Hbug; cbn.
      * split; [reflexivity |]. split; [intros [? | ?]; discriminate |].
        split.
        { intros u Hu _. injection Hu as <-. rewrite Hloc, Hbug.
          split; [reflexivity |]. eexists _, _.
          split; [reflexivity |]. split; reflexivity. }
        split; [| reflexivity]. intros _.
        exists (String c uuid), target. repeat split; [discriminate | assumption ..].
      * split; [reflexivity |]. split; [intros [? | ?]; discriminate |].
        split.
        { intros u Hu _. injection Hu as <-. rewrite Hloc, Hbug.
          split; reflexivity. }
        split; [discriminate |].
        intros (u & t & Hu & _ & Hl & Hs). injection Hu as <-.
        rewrite Hloc in Hl. injection Hl as <-. congruence.
    + cbn. split; [reflexivity |]. split; [intros [? | ?]; discriminate |].
      split.
      { intros u Hu _. injection Hu as <-. rewrite Hloc. split; reflexivity. }
      split; [discriminate |].
      intros (u & t & Hu & _ & Hl & _). injection Hu as <-. congruence.
  - cbn. repeat split; try discriminate; try congruence.
    intros (uuid & target & Heq & _). discriminate.
Qed.

End Verdicts.

(** ** Energy and filter over the real numbers *)

Lemma sum_squares_from (samples : list Z) (a : Z) :
  fold_left (fun sum s => sum + s * s) samples a = a + sum_squares samples.
Proof.
  unfold sum_squares. revert a.
  induction samples as [| s rest IH]; intros a; cbn [fold_left].
  - lia.
  - rewrite IH, (IH (0 + s * s)). lia.
Qed.

Lemma sum_squares_cons (s : Z) (rest : list Z) :
  sum_squares (s :: rest) = s * s + sum_squares rest.
Proof.
  unfold sum_squares at 1. cbn [fold_left]. apply sum_squares_from.
Qed.

Lemma sum_squares_nonneg (samples : list Z) : 0 <= sum_squares samples.
Proof.
  induction samples as [| s rest IH].
  - reflexivity.
  - rewrite sum_squares_cons. nia.
Qed.

Lemma real_sum_of_squares (samples : list Z) (a : Z) :
  fold_left (fun sum s => (sum + IZR s * IZR s)%R) samples (IZR a)
  = IZR (a + sum_squares samples).
Proof.
  revert a. induction samples as [| s rest IH]; intros a; cbn [fold_left].
  - f_equal. cbn. lia.
  - rewrite <- mult_IZR, <- plus_IZR, IH, sum_squares_cons. f_equal. lia.
Qed.

Lemma calc_frame_energy_real (samples : list Z) (count : Z) :
  calc_frame_energy (H:=Double_R) samples count
  = sqrt (IZR (sum_squares (firstn (Z.to_nat count) samples)) / IZR count).
Proof.
  unfold calc_frame_energy. cbn [d_sqrt d_div d_add d_mul d_of_int Double_R].
  now rewrite (real_sum_of_squares (firstn (Z.to_nat count) samples) 0).
Qed.

(** Samples after the first [count] are not read. *)
Example calc_frame_energy_reads_count_samples :
  calc_frame_energy (H:=Double_R) [3; 4; 1000] 2 = sqrt (25 / 2) /\
  calc_frame_energy (H:=Double_binary64) [3; 4; 1000] 2
    = 0x1.c48c6001f0acp+1%float.
Proof.
  split; [| vm_compute; reflexivity].
  rewrite calc_frame_energy_real. reflexivity.
Qed.

(** X15: in exact arithmetic the energy gate is a test on the mean square:
    for [count > 0] the energy exceeds the threshold of 500 exactly when
    the sum of the squares of the first [count] samples, the ones the loop
    reads, exceeds 250000 times [count]. *)
Theorem energy_gate_is_mean_square (samples : list Z) (count : Z) :
  0 < count ->
  d_gt (Double:=Double_R) (calc_frame_energy (H:=Double_R) samples count)
       (d_of_int (Double:=Double_R) ENERGY_THRESHOLD) = true <->
  250000 * count < sum_squares (firstn (Z.to_nat count) samples).
Proof.
  intros Hcount. rewrite calc_frame_energy_real.
  generalize (firstn (Z.to_nat count) samples). clear samples. intros samples.
  cbn [d_gt d_of_int Double_R]. unfold ENERGY_THRESHOLD.
  assert (Hc : (0 < IZR count)%R) by now apply IZR_lt.
  assert (H500 : sqrt 250000 = 500%R).
  { replace 250000%R with (500 * 500)%R by lra. apply sqrt_square. lra. }
  assert (Hscale : (250000 < IZR (sum_squares samples) / IZR count)%R <->
                   250000 * count < sum_squares samples).
  { split.
    - intros Hlt. apply lt_IZR. rewrite mult_IZR.
      apply (Rmult_lt_compat_r (IZR count)) in Hlt; [| exact Hc].
      unfold Rdiv in Hlt. rewrite Rmult_assoc, Rinv_l, Rmult_1_r in Hlt by lra.
      exact Hlt.
    - intros Hlt. apply IZR_lt in Hlt. rewrite mult_IZR in Hlt.
      apply (Rmult_lt_reg_r (IZR count)); [exact Hc |].
      unfold Rdiv. rewrite Rmult_assoc, Rinv_l, Rmult_1_r by lra. exact Hlt. }
  rewrite <- Hscale.
  destruct (Rlt_dec 500 (sqrt (IZR (sum_squares samples) / IZR count)))
    as [Hlt | Hge].
  - split; [intros _ | reflexivity].
    rewrite <- H500 in Hlt. now apply sqrt_lt_0_alt in Hlt.
  - split; [discriminate |]. intros Hlt. exfalso. apply Hge.
    rewrite <- H500. apply sqrt_lt_1_alt. lra.
Qed.

(** X16: in exact arithmetic a frame whose samples all have the magnitude
    [A] (a square wave, a constant level) has energy [A], whatever its
    length; in particular silence has energy 0. *)
Theorem energy_of_constant_magnitude (samples : list Z) (A : Z) :
  samples <> [] -> 0 <= A ->
  Forall (fun s => Z.abs s = A) samples ->
  calc_frame_energy (H:=Double_R) samples (Z.of_nat (List.length samples))
  = IZR A.
Proof.
  intros Hne HA Hall. rewrite calc_frame_energy_real.
  rewrite Nat2Z.id, firstn_all.
  assert (Hsum : sum_squares samples = Z.of_nat (List.length samples) * (A * A)).
  { clear Hne. induction Hall as [| s rest Hs _ IH].
    - reflexivity.
    - rewrite sum_squares_cons, IH. cbn [List.length].
      assert (s * s = A * A) by nia. lia. }
  assert (Hlen : (0 < IZR (Z.of_nat (List.length samples)))%R).
  { apply IZR_lt. destruct samples; [contradiction | cbn [List.length]; lia]. }
  rewrite Hsum, !mult_IZR.
  replace (IZR (Z.of_nat (List.length samples)) * (IZR A * IZR A)
           / IZR (Z.of_nat (List.length samples)))%R
    with (IZR A * IZR A)%R by (field; lra).
  apply sqrt_square. now apply IZR_le.
Qed.

Lemma real_coefficient_bounds :
  (0 < init_goertzel (H:=Double_R) 0 < 2)%R.
Proof.
  rewrite init_goertzel_real_from_zero.
  pose proof PI_RGT_0 as Hpi.
  assert (Hcos0 : (0 < cos (2 * PI * (205 * 450 / 8000) / 205))%R).
  { apply cos_gt_0; lra. }
  assert (Hcos1 : (cos (2 * PI * (205 * 450 / 8000) / 205) < 1)%R).
  { rewrite <- cos_0. apply cos_decreasing_1; lra. }
  lra.
Qed.

(** X17: the coefficient over the real numbers lies strictly between 0 and
    2, so it is never taken for the unset value 0: [init_goertzel] computes
    it once and every later call keeps it. *)
Theorem goertzel_coefficient_is_cached (g : R) :
  (0 < init_goertzel (H:=Double_R) 0 < 2)%R /\
  init_goertzel (H:=Double_R) (init_goertzel (H:=Double_R) g)
  = init_goertzel (H:=Double_R) g.
Proof.
  split; [exact real_coefficient_bounds |].
  assert (Hkeep : forall x : R, x <> 0%R -> init_goertzel (H:=Double_R) x = x).
  { intros x Hx. unfold init_goertzel. cbn.
    destruct (Req_dec_T x 0); [contradiction | reflexivity]. }
  destruct (Req_dec_T g 0) as [-> | Hg].
  - apply Hkeep. pose proof real_coefficient_bounds. lra.
  - rewrite (Hkeep g Hg). now apply Hkeep.
Qed.

(** X18: over the real numbers the energy the filter reports is never
    negative when the coefficient is at most 2 in absolute value, as the
    coefficient of the module is. *)
Theorem goertzel_energy_nonnegative (st : ringback_state_t (D:=R)) :
  (-2 <= goertzel_coef st <= 2)%R ->
  (0 <= goertzel_get_energy (H:=Double_R) st)%R.
Proof.
  intros Hc.
  unfold goertzel_get_energy, GOERTZEL_N.
  cbn [d_div d_sub d_add d_mul d_of_int Double_R].
  generalize dependent (goertzel_coef st). intros c Hc.
  generalize (goertzel_s1 st) (goertzel_s2 st). intros s1 s2.
  assert (Hpower : (0 <= s1 * s1 + s2 * s2 - c * s1 * s2)%R).
  { assert (Hp : (0 <= (2 - c) * ((s1 + s2) * (s1 + s2)))%R).
    { apply Rmult_le_pos; [lra | apply (Rle_0_sqr (s1 + s2))]. }
    assert (Hm : (0 <= (2 + c) * ((s1 - s2) * (s1 - s2)))%R).
    { apply Rmult_le_pos; [lra | apply (Rle_0_sqr (s1 - s2))]. }
    lra. }
  apply Rmult_le_pos; [exact Hpower |].
  apply Rlt_le, Rinv_0_lt_compat. apply IZR_lt. reflexivity.
Qed.

(** ** The further properties at concrete inputs *)

Lemma goertzel_window_drops_rest_of_frame_witness :
  goertzel_window (nyquist_wave 205 1000 ++ repeat 10000 115)
    (set_goertzel_coef (init_goertzel 0%float) started_state)
    = goertzel_window (nyquist_wave 205 1000)
        (set_goertzel_coef (init_goertzel 0%float) started_state) /\
  snd (goertzel_window (nyquist_wave 205 1000)
         (set_goertzel_coef (init_goertzel 0%float) started_state))
    = goertzel_get_energy
        (fold_left goertzel_process_sample (nyquist_wave 205 1000)
           (set_goertzel_coef (init_goertzel 0%float) started_state)).
Proof.
  destruct (goertzel_window_drops_rest_of_frame
              (nyquist_wave 205 1000) (repeat 10000 115)
              (set_goertzel_coef (init_goertzel 0%float) started_state))
    as (Hcut & Hread & _).
  - vm_compute. discriminate.
  - reflexivity.
  - discriminate.
  - split; [exact Hcut | exact Hread].
Defined.

Lemma goertzel_window_joins_short_frames_witness :
  goertzel_window (silence 80 ++ square_wave 80 8000) started_state
    = goertzel_window (square_wave 80 8000)
        (fst (goertzel_window (silence 80) started_state)) /\
  sample_count (fst (goertzel_window (silence 80) started_state))
    = sample_count started_state + Z.of_nat (List.length (silence 80)) /\
  snd (goertzel_window (silence 80) started_state) = d_of_int 0.
Proof.
  apply (goertzel_window_joins_short_frames (silence 80) (square_wave 80 8000)
           started_state).
  - vm_compute. discriminate.
  - vm_compute. reflexivity.
Defined.

Lemma tracker_measures_cadence_witness :
  last_silence_duration_ms
    (track_stream [ (false, 10); (false, 20); (false, 30); (true, 360);
                    (true, 370); (false, 710) ] started_state []) = 350 /\
  last_tone_duration_ms
    (track_stream [ (false, 10); (false, 20); (false, 30); (true, 360);
                    (true, 370); (false, 710) ] started_state []) = 350.
Proof.
  destruct (tracker_measures_cadence started_state [] 10 360 710 [20; 30] [370])
    as (Hsilence & Htone & _).
  - reflexivity.
  - reflexivity.
  - vm_compute. split; [reflexivity | discriminate].
  - vm_compute. split; [discriminate | reflexivity].
  - split; [exact Hsilence | exact Htone].
Defined.

Lemma silence_start_zero_is_unset_witness :
  last_silence_duration_ms (snd (fst (track_segment true 40 started_state [])))
    = last_silence_duration_ms started_state /\
  track_segment false 0 started_state [] = (SWITCH_TRUE, started_state, []).
Proof.
  destruct (silence_start_zero_is_unset started_state [] 40 eq_refl eq_refl)
    as ((Hkept & _) & Hzero).
  split; [exact Hkept | exact Hzero].
Defined.

Lemma frame_without_samples_is_skipped_witness :
  ringback_media_callback started_session null_frame 61000000
    = (SWITCH_TRUE, started_session) /\
  deliver started_session [(empty_frame, 61000000); (null_frame, 62000000)]
    = started_session.
Proof.
  destruct (frame_without_samples_is_skipped started_session) as [Hone Hall].
  split.
  - apply Hone. reflexivity.
  - apply Hall. reflexivity.
Defined.

Lemma deliveries_keep_configuration_witness :
  exists state',
    user_data (deliver started_session busy_cadence) = Some state' /\
    configuration state' = configuration started_state /\
    running state' = running started_state.
Proof.
  destruct (deliveries_keep_configuration started_session started_state
              busy_cadence eq_refl)
    as (state' & Hud & Hconf & _ & _ & _ & Htime).
  exists state'. split; [exact Hud |]. split; [exact Hconf |].
  apply Htime. vm_compute. reflexivity.
Defined.

Lemma start_ringback_settings_witness :
  exists state,
    user_data (snd (start_ringback 0 (Some 30) None SWITCH_STATUS_SUCCESS
                      idle_machine)) = Some state /\
    max_detect_time_ms state = 30000 /\ hangup_on_busy state = 1.
Proof.
  destruct (start_ringback_settings 0 (Some 30) None idle_machine)
    as ((state & Hstart & _ & _ & _ & _ & _ & Hmax & Hhang & _) & _).
  exists state. rewrite Hstart. split; [reflexivity |]. split.
  - apply (Hmax 30); [reflexivity | vm_compute; split; [reflexivity | discriminate]].
  - apply Hhang. reflexivity.
Defined.

Lemma started_session_stops_on_time_witness :
  fst (ringback_media_callback
         (deliver (snd (start_ringback 1700000000000000 None None
                          SWITCH_STATUS_SUCCESS idle_machine))
                  [(loud_frame, 1700000000010000)])
         silent_frame 1700000060001000) = SWITCH_FALSE.
Proof.
  edestruct (started_session_stops_on_time 1700000000000000 1700000060001000
               None None idle_machine) as [Hiff _].
  - reflexivity.
  - reflexivity.
  - vm_compute. split; discriminate.
  - vm_compute. reflexivity.
  - instantiate (1 := [(loud_frame, 1700000000010000)]). vm_compute. reflexivity.
  - instantiate (1 := silent_frame). reflexivity.
  - apply Hiff. vm_compute. reflexivity.
Defined.

Lemma api_uuid_start_ringback_reports_witness :
  snd (fst (api_uuid_start_ringback (Some "call-1"%string)
              (one_session_host "call-1" SWITCH_STATUS_SUCCESS) 0))
  = ("+OK" ++ newline)%string.
Proof.
  destruct (api_uuid_start_ringback_reports (Some "call-1"%string)
              (one_session_host "call-1" SWITCH_STATUS_SUCCESS) 0)
    as (_ & _ & _ & Hok).
  apply Hok. eexists _, _.
  split; [reflexivity |]. split; [discriminate |]. split; reflexivity.
Defined.

Lemma energy_gate_is_mean_square_witness :
  d_gt (Double:=Double_R) (calc_frame_energy (H:=Double_R) [600; -600; 600] 3)
       (d_of_int (Double:=Double_R) ENERGY_THRESHOLD) = true /\
  d_gt (Double:=Double_R) (calc_frame_energy (H:=Double_R) [3; 4; 1000] 2)
       (d_of_int (Double:=Double_R) ENERGY_THRESHOLD) <> true.
Proof.
  split.
  - apply (proj2 (energy_gate_is_mean_square [600; -600; 600] 3 eq_refl)).
    reflexivity.
  - intros Hgate.
    apply (proj1 (energy_gate_is_mean_square [3; 4; 1000] 2 eq_refl)) in Hgate.
    vm_compute in Hgate. discriminate.
Defined.

Lemma energy_of_constant_magnitude_witness :
  calc_frame_energy (H:=Double_R) [700; -700; 700] 3 = 700%R.
Proof.
  apply (energy_of_constant_magnitude [700; -700; 700] 700).
  - discriminate.
  - discriminate.
  - repeat constructor.
Defined.

Lemma goertzel_energy_nonnegative_witness :
  (0 <= goertzel_get_energy (H:=Double_R) (real_state 3 (-4)))%R.
Proof.
  apply goertzel_energy_nonnegative.
  pose proof real_coefficient_bounds as Hb. cbn [goertzel_coef real_state]. lra.
Defined.
